(** * Telegram Channel API: the endpoint and mapping layer of main.py

    A shallow embedding of the three data endpoints of [main.py]
    ([list_channels], [get_messages], [get_messages_by_username]) over an
    abstract Telethon client.  The client is a record of the answers it gives
    to the three calls the handlers make; an asynchronous iterator is a finite
    stream that ends normally or by raising.  Every handler runs in a small
    monad that logs the upstream calls it makes and may raise, and its
    [try]/[except] turns the outcome into an HTTP response. *)

From stdpp Require Import base option list strings gmap pretty.

Local Open Scope string_scope.
Local Open Scope list_scope.
Local Open Scope Z_scope.

(** ** Platform entities (telethon.tl.types) *)

(** Python's [datetime]; the handlers pass it through untouched. *)
Definition datetime : Type := Z.

Module User.
Record t : Type := mk { id : Z; username : option string }.
End User.

Module Chat.
Record t : Type := mk { id : Z; title : string }.
End Chat.

(** An attribute that an object may lack: what [hasattr] tests. *)
Inductive attr (A : Type) : Type :=
| Missing
| Has (v : A).
Arguments Missing {A}.
Arguments Has {A} v.

Module Channel.
Record t : Type := mk {
  id : Z;
  title : string;
  username : option string;
  participants_count : attr (option Z)
}.
End Channel.

(** The three classes [main.py] imports and tells apart with [isinstance]. *)
Inductive entity : Type :=
| IsUser (u : User.t)
| IsChat (c : Chat.t)
| IsChannel (c : Channel.t).

(** [message.media] is an instance of one of Telethon's [MessageMedia*]
    classes: a photo attachment is a [MessageMediaPhoto], a file a
    [MessageMediaDocument], and so on; [MessageMediaOther] stands for the
    classes not listed, under their own name.  The handlers observe only
    [type(message.media).__name__]. *)
Inductive MessageMedia : Type :=
| MessageMediaPhoto
| MessageMediaDocument
| MessageMediaWebPage
| MessageMediaGeo
| MessageMediaContact
| MessageMediaPoll
| MessageMediaUnsupported
| MessageMediaOther (class_name : string).

Definition type_name (m : MessageMedia) : string :=
  match m with
  | MessageMediaPhoto => "MessageMediaPhoto"
  | MessageMediaDocument => "MessageMediaDocument"
  | MessageMediaWebPage => "MessageMediaWebPage"
  | MessageMediaGeo => "MessageMediaGeo"
  | MessageMediaContact => "MessageMediaContact"
  | MessageMediaPoll => "MessageMediaPoll"
  | MessageMediaUnsupported => "MessageMediaUnsupported"
  | MessageMediaOther class_name => class_name
  end.

Module Message.
Record t : Type := mk {
  id : Z;
  date : datetime;
  message : option string;
  media : option MessageMedia;
  sender : option entity;
  views : option Z;
  forwards : option Z
}.
End Message.

Module Dialog.
Record t : Type := mk { entity : entity }.
End Dialog.

(** ** Response models (pydantic) *)

Module MessageModel.
Record t : Type := mk {
  id : Z;
  date : datetime;
  text : string;
  sender_id : option Z;
  sender_username : option string;
  views : option Z;
  forwards : option Z
}.
End MessageModel.

Module ChannelModel.
Record t : Type := mk {
  id : Z;
  title : string;
  username : option string;
  participants_count : option Z
}.
End ChannelModel.

(** ** Exceptions and asynchronous iterators *)

(** The subclasses of [Exception] the handlers tell apart.  [ValueError]
    stands for the class and its subclasses, [OtherError] for every class
    that is neither a [ValueError] nor a [FloodWaitError]; [msg] is what
    [str(e)] gives. *)
Inductive exn : Type :=
| ValueError (msg : string)
| FloodWaitError (seconds : Z) (msg : string)
| OtherError (cls : string) (msg : string).

Definition str_exn (e : exn) : string :=
  match e with
  | ValueError msg => msg
  | FloodWaitError _ msg => msg
  | OtherError _ msg => msg
  end.

(** What an [async for] sees: items, then a normal end or an exception. *)
Inductive stream (A : Type) : Type :=
| Done
| Yield (a : A) (s : stream A)
| Raise (e : exn).
Arguments Done {A}.
Arguments Yield {A} a s.
Arguments Raise {A} e.

Fixpoint yields {A} (l : list A) (tl : stream A) : stream A :=
  match l with
  | [] => tl
  | a :: l' => Yield a (yields l' tl)
  end.

Fixpoint stream_items {A} (s : stream A) : list A :=
  match s with
  | Done => []
  | Yield a s' => a :: stream_items s'
  | Raise _ => []
  end.

Fixpoint stream_exn {A} (s : stream A) : option exn :=
  match s with
  | Done => None
  | Yield _ s' => stream_exn s'
  | Raise e => Some e
  end.

(** ** The upstream client *)

(** [client.get_entity] takes an [int] or a [str]. *)
Inductive entity_like : Type :=
| PeerId (channel_id : Z)
| Username (username : string).

Module TelegramClient.
Record t : Type := mk {
  get_entity : entity_like -> exn + entity;
  iter_messages : entity -> gmap string Z -> stream Message.t;
  iter_dialogs : stream Dialog.t
}.
End TelegramClient.

(** The upstream calls a handler has made, in order. *)
Inductive call : Type :=
| GetEntity (peer : entity_like)
| IterMessages (e : entity) (kwargs : gmap string Z)
| IterDialogs.

(** ** The handler monad: a log of upstream calls, and exceptions *)

Definition Await (A : Type) : Type := list call -> (exn + A) * list call.

Definition ret {A} (a : A) : Await A := fun log => (inr a, log).

Definition bind {A B} (m : Await A) (k : A -> Await B) : Await B :=
  fun log =>
    match m log with
    | (inl e, log') => (inl e, log')
    | (inr a, log') => k a log'
    end.

Definition lift {A} (r : exn + A) : Await A := fun log => (r, log).

Definition upstream (c : call) : Await unit := fun log => (inr tt, log ++ [c]).

Declare Scope await_scope.
Delimit Scope await_scope with await.
Notation "x <- m ;; k" := (bind m (fun x => k))
  (at level 100, m at next level, right associativity) : await_scope.
Notation "m ;;; k" := (bind m (fun _ => k))
  (at level 100, right associativity) : await_scope.

(** [async for x in s: acc = body acc x]. *)
Fixpoint async_for {A B} (s : stream A) (body : B -> A -> B) (acc : B) : exn + B :=
  match s with
  | Done => inr acc
  | Yield a s' => async_for s' body (body acc a)
  | Raise e => inl e
  end.

(** ** HTTP responses *)

Inductive response (A : Type) : Type :=
| JSON (body : A)
| HTTPException (status_code : Z) (detail : string)
| RequestValidationError.
Arguments JSON {A} body.
Arguments HTTPException {A} status_code detail.
Arguments RequestValidationError {A}.

(** [try: body  except ...: raise HTTPException(...)], from an empty log.
    The failures of [exn] are subclasses of [Exception], which the last
    clause of every handler catches; a [BaseException] that is not one
    ([asyncio.CancelledError], [KeyboardInterrupt]) is caught by no clause
    and has no place in this model. *)
Definition try_except {A} (body : Await A) (handler : exn -> response A)
  : response A * list call :=
  match body [] with
  | (inr a, log) => (JSON a, log)
  | (inl e, log) => (handler e, log)
  end.

(** ** Upstream calls, as the handlers await them *)

Definition client_get_entity (client : TelegramClient.t) (peer : entity_like)
  : Await entity :=
  (upstream (GetEntity peer) ;;;
   lift (TelegramClient.get_entity client peer))%await.

Definition client_iter_messages (client : TelegramClient.t) (e : entity)
    (kwargs : gmap string Z) : Await (stream Message.t) :=
  (upstream (IterMessages e kwargs) ;;;
   ret (TelegramClient.iter_messages client e kwargs))%await.

Definition client_iter_dialogs (client : TelegramClient.t)
  : Await (stream Dialog.t) :=
  (upstream IterDialogs ;;; ret (TelegramClient.iter_dialogs client))%await.

(** ** GET /channels *)

Definition list_channels (client : TelegramClient.t)
  : response (list ChannelModel.t) * list call :=
  try_except
    (dialogs <- client_iter_dialogs client ;;
     lift (async_for dialogs
       (fun channels dialog =>
          let entity := Dialog.entity dialog in
          match entity with
          | IsChannel entity =>
              let channel_info :=
                ChannelModel.mk
                  (Channel.id entity)
                  (Channel.title entity)
                  (Channel.username entity)
                  (match Channel.participants_count entity with
                   | Has v => v
                   | Missing => None
                   end) in
              channels ++ [channel_info]
          | _ => channels
          end)
       []))%await
    (fun e => HTTPException 500 ("Error listing channels: " +:+ str_exn e)).

(** ** GET /channels/{channel_id}/messages *)

Definition get_messages (client : TelegramClient.t) (channel_id : Z)
    (limit : Z) (offset_id min_id max_id : option Z)
  : response (list MessageModel.t) * list call :=
  try_except
    (entity <- client_get_entity client (PeerId channel_id) ;;
     let iter_kwargs : gmap string Z := {[ "limit" := limit ]} in
     let iter_kwargs :=
       match offset_id with
       | Some v => <[ "offset_id" := v ]> iter_kwargs
       | None => iter_kwargs
       end in
     let iter_kwargs :=
       match min_id with
       | Some v => <[ "min_id" := v ]> iter_kwargs
       | None => iter_kwargs
       end in
     let iter_kwargs :=
       match max_id with
       | Some v => <[ "max_id" := v ]> iter_kwargs
       | None => iter_kwargs
       end in
     it <- client_iter_messages client entity iter_kwargs ;;
     lift (async_for it
       (fun messages message =>
          let '(sender_id, sender_username) :=
            match Message.sender message with
            | Some (IsUser sender) => (Some (User.id sender), User.username sender)
            | Some (IsChannel sender) =>
                (Some (Channel.id sender), Channel.username sender)
            | _ => (None, None)
            end in
          (* [message.message or ""] *)
          let text := default "" (Message.message message) in
          let text :=
            match Message.media message with
            | Some media =>
                if String.eqb text "" then "[Media: " +:+ type_name media +:+ "]"
                else text
            | None => text
            end in
          let message_model :=
            MessageModel.mk (Message.id message) (Message.date message) text
              sender_id sender_username
              (Message.views message) (Message.forwards message) in
          messages ++ [message_model])
       []))%await
    (fun e =>
       match e with
       | ValueError _ => HTTPException 404 ("Channel not found: " +:+ str_exn e)
       | FloodWaitError seconds _ =>
           HTTPException 429 ("Rate limited. Wait " +:+ pretty seconds +:+ " seconds")
       | _ => HTTPException 500 ("Error retrieving messages: " +:+ str_exn e)
       end).

(** ** GET /channels/by-username/{username}/messages *)

Definition get_messages_by_username (client : TelegramClient.t) (username : string)
    (limit : Z) (offset_id min_id max_id : option Z)
  : response (list MessageModel.t) * list call :=
  try_except
    (entity <- client_get_entity client (Username username) ;;
     let iter_kwargs : gmap string Z := {[ "limit" := limit ]} in
     let iter_kwargs :=
       match offset_id with
       | Some v => <[ "offset_id" := v ]> iter_kwargs
       | None => iter_kwargs
       end in
     let iter_kwargs :=
       match min_id with
       | Some v => <[ "min_id" := v ]> iter_kwargs
       | None => iter_kwargs
       end in
     let iter_kwargs :=
       match max_id with
       | Some v => <[ "max_id" := v ]> iter_kwargs
       | None => iter_kwargs
       end in
     it <- client_iter_messages client entity iter_kwargs ;;
     lift (async_for it
       (fun messages message =>
          let '(sender_id, sender_username) :=
            match Message.sender message with
            | Some (IsUser sender) => (Some (User.id sender), User.username sender)
            | Some (IsChannel sender) =>
                (Some (Channel.id sender), Channel.username sender)
            | _ => (None, None)
            end in
          (* [message.message or ""] *)
          let text := default "" (Message.message message) in
          let text :=
            match Message.media message with
            | Some media =>
                if String.eqb text "" then "[Media: " +:+ type_name media +:+ "]"
                else text
            | None => text
            end in
          let message_model :=
            MessageModel.mk (Message.id message) (Message.date message) text
              sender_id sender_username
              (Message.views message) (Message.forwards message) in
          messages ++ [message_model])
       []))%await
    (fun e =>
       match e with
       | ValueError _ => HTTPException 404 ("Channel not found: " +:+ str_exn e)
       | FloodWaitError seconds _ =>
           HTTPException 429 ("Rate limited. Wait " +:+ pretty seconds +:+ " seconds")
       | _ => HTTPException 500 ("Error retrieving messages: " +:+ str_exn e)
       end).

(** ** Query parameters, as FastAPI validates them before the handler runs *)

(** [Query(default=d, ge=lo, le=hi)] on an [int] parameter: the default when
    the parameter is absent, the value when it is within bounds, and a
    validation error otherwise. *)
Definition Query_bounded (d lo hi : Z) (raw : option Z) : option Z :=
  match raw with
  | None => Some d
  | Some v => if (lo <=? v) && (v <=? hi) then Some v else None
  end.

Module Params.
Record t : Type := mk {
  limit : option Z;
  offset_id : option Z;
  min_id : option Z;
  max_id : option Z
}.
End Params.

Definition get_messages_route (client : TelegramClient.t) (channel_id : Z)
    (q : Params.t) : response (list MessageModel.t) * list call :=
  match Query_bounded 50 1 1000 (Params.limit q) with
  | Some limit =>
      get_messages client channel_id limit
        (Params.offset_id q) (Params.min_id q) (Params.max_id q)
  | None => (RequestValidationError, [])
  end.

Definition get_messages_by_username_route (client : TelegramClient.t)
    (username : string) (q : Params.t)
  : response (list MessageModel.t) * list call :=
  match Query_bounded 50 1 1000 (Params.limit q) with
  | Some limit =>
      get_messages_by_username client username limit
        (Params.offset_id q) (Params.min_id q) (Params.max_id q)
  | None => (RequestValidationError, [])
  end.

(** FastAPI's routing of the two message paths: the path parameter is an
    [int] for [/channels/{channel_id}/messages] and a [str] for
    [/channels/by-username/{username}/messages]. *)
Definition messages_endpoint (client : TelegramClient.t) (peer : entity_like)
    (q : Params.t) : response (list MessageModel.t) * list call :=
  match peer with
  | PeerId channel_id => get_messages_route client channel_id q
  | Username username => get_messages_by_username_route client username q
  end.

(** ** The pieces of the handlers, named *)

(** Lines 119-128 and 186-195: the sender fields of a message. *)
Definition sender_fields (sender : option entity) : option Z * option string :=
  match sender with
  | Some (IsUser u) => (Some (User.id u), User.username u)
  | Some (IsChannel c) => (Some (Channel.id c), Channel.username c)
  | _ => (None, None)
  end.

(** Lines 131-133 and 198-200: the text of a message. *)
Definition message_text (m : Message.t) : string :=
  let text := default "" (Message.message m) in
  match Message.media m with
  | Some media =>
      if String.eqb text "" then "[Media: " +:+ type_name media +:+ "]" else text
  | None => text
  end.

Definition to_message_model (m : Message.t) : MessageModel.t :=
  MessageModel.mk (Message.id m) (Message.date m) (message_text m)
    (sender_fields (Message.sender m)).1 (sender_fields (Message.sender m)).2
    (Message.views m) (Message.forwards m).

(** Lines 75-82: the channel dialogs, and the model of a channel. *)
Definition to_channel_model (c : Channel.t) : ChannelModel.t :=
  ChannelModel.mk (Channel.id c) (Channel.title c) (Channel.username c)
    (match Channel.participants_count c with Has v => v | Missing => None end).

Definition dialog_channel (d : Dialog.t) : option Channel.t :=
  match Dialog.entity d with
  | IsChannel c => Some c
  | _ => None
  end.

Definition is_channel (e : entity) : bool :=
  match e with IsChannel _ => true | _ => false end.

(** Lines 109-115 and 176-182: the keyword arguments of [iter_messages]. *)
Definition build_iter_kwargs (limit : Z) (offset_id min_id max_id : option Z)
  : gmap string Z :=
  let iter_kwargs : gmap string Z := {[ "limit" := limit ]} in
  let iter_kwargs :=
    match offset_id with
    | Some v => <[ "offset_id" := v ]> iter_kwargs
    | None => iter_kwargs
    end in
  let iter_kwargs :=
    match min_id with
    | Some v => <[ "min_id" := v ]> iter_kwargs
    | None => iter_kwargs
    end in
  match max_id with
  | Some v => <[ "max_id" := v ]> iter_kwargs
  | None => iter_kwargs
  end.

(** Lines 147-152 and 214-219: the [except] clauses of the message handlers. *)
Definition messages_error (e : exn) : response (list MessageModel.t) :=
  match e with
  | ValueError _ => HTTPException 404 ("Channel not found: " +:+ str_exn e)
  | FloodWaitError seconds _ =>
      HTTPException 429 ("Rate limited. Wait " +:+ pretty seconds +:+ " seconds")
  | _ => HTTPException 500 ("Error retrieving messages: " +:+ str_exn e)
  end.

(** The first exception the upstream raises while a message request runs. *)
Definition upstream_failure (client : TelegramClient.t) (peer : entity_like)
    (kwargs : gmap string Z) : option exn :=
  match TelegramClient.get_entity client peer with
  | inl e => Some e
  | inr ent => stream_exn (TelegramClient.iter_messages client ent kwargs)
  end.

Definition status_of {A} (r : response A) : option Z :=
  match r with
  | JSON _ => Some 200
  | HTTPException code _ => Some code
  | RequestValidationError => Some 422
  end.

Definition is_error {A} (r : response A) : bool :=
  match r with JSON _ => false | _ => true end.

(** The upstream contract the handlers rely on for the cap: an iteration
    asked for [limit] items yields no more than that. *)
Definition honours_limit (client : TelegramClient.t) : Prop :=
  forall (e : entity) (kwargs : gmap string Z) (n : Z),
    kwargs !! "limit" = Some n ->
    0 <= n ->
    Z.of_nat (length (stream_items (TelegramClient.iter_messages client e kwargs))) <= n.

(** ** Example upstreams *)

(** A client with one channel, known by id and by handle, whose history is
    served newest first and cut at the requested limit. *)
Definition news : Channel.t := Channel.mk 100 "News" (Some "newsch") (Has (Some 5000)).

Definition history_client (history : list Message.t) : TelegramClient.t :=
  TelegramClient.mk
    (fun peer =>
       match peer with
       | PeerId 100 => inr (IsChannel news)
       | PeerId _ => inl (ValueError "Could not find the input entity")
       | Username u =>
           if String.eqb u "newsch" then inr (IsChannel news)
           else inl (ValueError "No user has this username")
       end)
    (fun _ kwargs =>
       match kwargs !! "limit" with
       | Some n => yields (take (Z.to_nat n) history) Done
       | None => yields history Done
       end)
    (Yield (Dialog.mk (IsChannel news)) Done).

Definition text_message (id : Z) (text : string) : Message.t :=
  Message.mk id (1700000000 + id) (Some text) None None (Some 10) (Some 0).

Definition five_messages : list Message.t :=
  [ text_message 5 "e"; text_message 4 "d"; text_message 3 "c";
    text_message 2 "b"; text_message 1 "a" ].

(** A client whose calls answer with fixed values. *)
Definition fixed_client (resolved : exn + entity) (messages : stream Message.t)
    (dialogs : stream Dialog.t) : TelegramClient.t :=
  TelegramClient.mk (fun _ => resolved) (fun _ _ => messages) dialogs.

Definition no_params : Params.t := Params.mk None None None None.

(** A flood wait of 37 seconds raised after two messages were yielded. *)
Definition flooded_client : TelegramClient.t :=
  fixed_client (inr (IsChannel news))
    (Yield (text_message 5 "e")
       (Yield (text_message 4 "d")
          (Raise (FloodWaitError 37 "A wait of 37 seconds is required"))))
    (Yield (Dialog.mk (IsChannel news))
       (Raise (FloodWaitError 37 "A wait of 37 seconds is required"))).

(** A message with neither text nor media, and a photo without a caption. *)
Definition silent_message : Message.t :=
  Message.mk 7 1700000007 None None None None None.

Definition photo_message : Message.t :=
  Message.mk 8 1700000008 None (Some MessageMediaPhoto) None (Some 3) None.

Definition captioned_photo : Message.t :=
  Message.mk 9 1700000009 (Some "look") (Some MessageMediaPhoto) None None None.

(** Messages sent by a user, by a channel, inside a basic chat, and one with
    no sender. *)
Definition alice : User.t := User.mk 11 (Some "alice").

Definition sent_by (id : Z) (sender : option entity) : Message.t :=
  Message.mk id (1700000000 + id) (Some "hi") None sender None None.

Definition mixed_senders : list Message.t :=
  [ sent_by 4 (Some (IsUser alice));
    sent_by 3 (Some (IsChannel news));
    sent_by 2 (Some (IsChat (Chat.mk 12 "Family")));
    sent_by 1 None ].

(** An upstream that breaks with a connection error after yielding two
    items of either iteration. *)
Definition broken_client : TelegramClient.t :=
  fixed_client (inr (IsChannel news))
    (yields [text_message 5 "e"; text_message 4 "d"]
       (Raise (OtherError "ConnectionError" "Connection lost")))
    (yields [Dialog.mk (IsChannel news); Dialog.mk (IsUser alice)]
       (Raise (OtherError "ConnectionError" "Connection lost"))).

(** ** Credentials (module level of main.py and of setup_telegram.py) *)

(** [os.getenv(k)] and [os.getenv(k, d)], over the environment as
    [load_dotenv()] leaves it: the default stands in for an unset variable
    only, not for one set to the empty string. *)
Definition getenv (environ : gmap string string) (k : string) : option string :=
  environ !! k.

Definition getenv_default (environ : gmap string string) (k d : string) : string :=
  default d (environ !! k).

(** The truth value of an [Optional[str]]: [None] and [""] are false. *)
Definition str_truthy (o : option string) : bool :=
  match o with
  | Some s => negb (String.eqb s "")
  | None => false
  end.

(** [not API_ID or not API_HASH]. *)
Definition credentials_missing (environ : gmap string string) : bool :=
  negb (str_truthy (getenv environ "TELEGRAM_API_ID"))
  || negb (str_truthy (getenv environ "TELEGRAM_API_HASH")).

(** The arguments of [TelegramClient(SESSION_NAME, int(API_ID), API_HASH)]. *)
Module ClientArgs.
Record t : Type := mk { session : string; api_id : Z; api_hash : string }.
End ClientArgs.

(** Lines 17-26 of main.py; [py_int] is Python's [int] on a [str], which
    raises [ValueError] on a literal it cannot read. *)
Definition main_module_init (py_int : string -> exn + Z)
    (environ : gmap string string) : exn + ClientArgs.t :=
  let API_ID := getenv environ "TELEGRAM_API_ID" in
  let API_HASH := getenv environ "TELEGRAM_API_HASH" in
  let SESSION_NAME := getenv_default environ "TELEGRAM_SESSION_NAME" "telegram_session" in
  match API_ID, API_HASH with
  | Some api_id, Some api_hash =>
      if String.eqb api_id "" || String.eqb api_hash "" then
        inl (ValueError
               "TELEGRAM_API_ID and TELEGRAM_API_HASH must be set in environment variables")
      else
        match py_int api_id with
        | inl e => inl e
        | inr n => inr (ClientArgs.mk SESSION_NAME n api_hash)
        end
  | _, _ =>
      inl (ValueError
             "TELEGRAM_API_ID and TELEGRAM_API_HASH must be set in environment variables")
  end.

(** ** The interactive setup script (setup_telegram.py) *)

(** What can end the script early: the one exception [main] catches, the
    [EOFError] of [input()] on a closed stdin, and everything else. *)
Inductive auth_exn : Type :=
| SessionPasswordNeededError
| EOFError
| Uncaught (e : exn).

Module Me.
Record t : Type := mk {
  first_name : option string;
  last_name : option string;
  username : option string
}.
End Me.

(** The answers of the client the script drives. *)
Module AuthClient.
Record t : Type := mk {
  start : auth_exn + unit;
  is_user_authorized : auth_exn + bool;
  send_code_request : string -> auth_exn + unit;
  sign_in : string -> string -> auth_exn + unit;
  sign_in_password : string -> auth_exn + unit;
  get_me : auth_exn + Me.t;
  disconnect : auth_exn + unit
}.
End AuthClient.

Inductive auth_call : Type :=
| Construct (session : string) (api_id : Z) (api_hash : string)
| Start
| IsUserAuthorized
| SendCodeRequest (phone : string)
| SignIn (phone code : string)
| SignInPassword (password : string)
| GetMe
| Disconnect.

(** What the script does that can be seen from outside, in order. *)
Inductive event : Type :=
| Printed (line : string)
| Asked (prompt : string) (answer : option string)
| Called (c : auth_call).

(** The script monad: the lines still to come on stdin and the events so
    far; an exception keeps both.  The lines are those the script's own
    [input()] calls find: what [client.start()] may read by itself, before
    any of them, is not part of the list. *)
Definition Script (A : Type) : Type :=
  list string * list event -> (auth_exn + A) * (list string * list event).

Definition script_ret {A} (a : A) : Script A := fun st => (inr a, st).

Definition script_bind {A B} (m : Script A) (k : A -> Script B) : Script B :=
  fun st =>
    match m st with
    | (inl e, st') => (inl e, st')
    | (inr a, st') => k a st'
    end.

Declare Scope script_scope.
Delimit Scope script_scope with script.
Notation "x <- m ;; k" := (script_bind m (fun x => k))
  (at level 100, m at next level, right associativity) : script_scope.
Notation "m ;;; k" := (script_bind m (fun _ => k))
  (at level 100, right associativity) : script_scope.

Definition print (line : string) : Script unit :=
  fun st => (inr tt, (st.1, st.2 ++ [Printed line])).

(** [input(prompt)]: the next line of stdin, or [EOFError] when there is none. *)
Definition input (prompt : string) : Script string :=
  fun st =>
    match st.1 with
    | [] => (inl EOFError, (st.1, st.2 ++ [Asked prompt None]))
    | answer :: rest => (inr answer, (rest, st.2 ++ [Asked prompt (Some answer)]))
    end.

Definition called {A} (c : auth_call) (r : auth_exn + A) : Script A :=
  fun st => (r, (st.1, st.2 ++ [Called c])).

Definition raising_of {A} (r : exn + A) : Script A :=
  fun st => (match r with inl e => inl (Uncaught e) | inr a => inr a end, st).

(** [try: body  except SessionPasswordNeededError: handler]. *)
Definition except_password_needed {A} (body handler : Script A) : Script A :=
  fun st =>
    match body st with
    | (inl SessionPasswordNeededError, st') => handler st'
    | r => r
    end.

(** Lines 22-53 of setup_telegram.py, entered with non-empty credentials. *)
Definition setup_main (py_int : string -> exn + Z)
    (SESSION_NAME API_ID API_HASH : string) (PHONE : option string)
    (client : AuthClient.t) : Script unit :=
  (api_id <- raising_of (py_int API_ID) ;;
   called (Construct SESSION_NAME api_id API_HASH) (inr tt) ;;;
   called Start (AuthClient.start client) ;;;
   print "Telegram client started" ;;;
   authorized <- called IsUserAuthorized (AuthClient.is_user_authorized client) ;;
   (if negb authorized then
      print "Not authorized. Starting authentication..." ;;;
      phone <-
        (if negb (str_truthy PHONE) then
           input "Please enter your phone number (with country code, e.g., +1234567890): "
         else
           let phone := default "" PHONE in
           print ("Using phone number from .env: " +:+ phone) ;;;
           script_ret phone) ;;
      called (SendCodeRequest phone) (AuthClient.send_code_request client phone) ;;;
      except_password_needed
        (code <- input "Please enter the code you received: " ;;
         called (SignIn phone code) (AuthClient.sign_in client phone code))
        (password <-
           input "Two-step verification is enabled. Please enter your password: " ;;
         called (SignInPassword password)
           (AuthClient.sign_in_password client password)) ;;;
      print "Successfully authenticated!"
    else
      print "Already authorized!" ;;;
      me <- called GetMe (AuthClient.get_me client) ;;
      print ("Logged in as: " +:+ default "None" (Me.first_name me) +:+ " "
             +:+ default "" (Me.last_name me) +:+ " (@"
             +:+ (if str_truthy (Me.username me) then default "" (Me.username me)
                  else "no username")
             +:+ ")")) ;;;
   called Disconnect (AuthClient.disconnect client) ;;;
   print "Setup complete! You can now run the API server.")%script.

Inductive exit_status : Type :=
| Exit (code : Z)
| Traceback (e : auth_exn).

(** The whole script: the credentials check of lines 13-20, then
    [asyncio.run(main())]. *)
Definition setup_script (py_int : string -> exn + Z)
    (environ : gmap string string) (client : AuthClient.t) (stdin : list string)
  : exit_status * list event :=
  let API_ID := getenv environ "TELEGRAM_API_ID" in
  let API_HASH := getenv environ "TELEGRAM_API_HASH" in
  let SESSION_NAME := getenv_default environ "TELEGRAM_SESSION_NAME" "telegram_session" in
  let PHONE := getenv environ "TELEGRAM_PHONE" in
  match API_ID, API_HASH with
  | Some api_id, Some api_hash =>
      if String.eqb api_id "" || String.eqb api_hash "" then
        (Exit 1,
         [Printed "Error: TELEGRAM_API_ID and TELEGRAM_API_HASH must be set in .env file"])
      else
        match setup_main py_int SESSION_NAME api_id api_hash PHONE client (stdin, []) with
        | (inr _, st) => (Exit 0, st.2)
        | (inl e, st) => (Traceback e, st.2)
        end
  | _, _ =>
      (Exit 1,
       [Printed "Error: TELEGRAM_API_ID and TELEGRAM_API_HASH must be set in .env file"])
  end.

(** The client calls and the prompts of a run, read off its events. *)
Definition calls_of (trace : list event) : list auth_call :=
  omap (fun ev => match ev with Called c => Some c | _ => None end) trace.

Definition prompts_of (trace : list event) : list string :=
  omap (fun ev => match ev with Asked prompt _ => Some prompt | _ => None end) trace.

(** The calls that take part in a login. *)
Definition is_login_call (c : auth_call) : bool :=
  match c with
  | SendCodeRequest _ | SignIn _ _ | SignInPassword _ => true
  | _ => false
  end.

(** ** Example environment and setup clients *)

Definition example_int (s : string) : exn + Z :=
  if String.eqb s "12345" then inr 12345
  else inl (ValueError "invalid literal for int() with base 10").

Definition example_environ : gmap string string :=
  <[ "TELEGRAM_API_ID" := "12345" ]>
    (<[ "TELEGRAM_API_HASH" := "0123456789abcdef" ]> ∅).

Definition environ_with_phone : gmap string string :=
  <[ "TELEGRAM_PHONE" := "+15550100" ]> example_environ.

(** An account with two-step verification: the code is accepted, then the
    password is asked for. *)
Definition two_step_client : AuthClient.t :=
  AuthClient.mk (inr tt) (inr false)
    (fun _ => inr tt)
    (fun _ code =>
       if String.eqb code "24680" then inl SessionPasswordNeededError
       else inl (Uncaught (OtherError "PhoneCodeInvalidError" "The phone code entered was invalid")))
    (fun password =>
       if String.eqb password "hunter2" then inr tt
       else inl (Uncaught (OtherError "PasswordHashInvalidError" "The password you entered is invalid")))
    (inr (Me.mk (Some "Alice") None None))
    (inr tt).

(** A session that is authorized already. *)
Definition authorized_client : AuthClient.t :=
  AuthClient.mk (inr tt) (inr true)
    (fun _ => inr tt) (fun _ _ => inr tt) (fun _ => inr tt)
    (inr (Me.mk (Some "Alice") None None))
    (inr tt).

(** A session that is authorized already, over a connection that breaks
    when it is closed. *)
Definition breaks_on_disconnect_client : AuthClient.t :=
  AuthClient.mk (inr tt) (inr true)
    (fun _ => inr tt) (fun _ _ => inr tt) (fun _ => inr tt)
    (inr (Me.mk (Some "Alice") None None))
    (inl (Uncaught (OtherError "ConnectionError" "Connection lost"))).

(** An upstream on which the target is gone: Telethon reports a handle the
    platform refuses with the RPC error [UsernameInvalidError] and a channel
    that no longer exists with [ChannelInvalidError]; neither class is a
    [ValueError]. *)
Definition vanished_target_client : TelegramClient.t :=
  TelegramClient.mk
    (fun peer =>
       match peer with
       | PeerId _ => inl (OtherError "ChannelInvalidError" "Invalid channel object")
       | Username _ =>
           inl (OtherError "UsernameInvalidError"
                  "Nobody is using this username, or the username is unacceptable")
       end)
    (fun _ _ => Done)
    Done.

(** * Properties *)

Section Iteration.
Context {A B : Type}.

Lemma stream_items_yields (l : list A) :
    stream_items (yields l Done) = l.
Proof. induction l as [|a l IH]; simpl; [done | by rewrite IH]. Qed.

Lemma stream_exn_yields (l : list A) (tl : stream A) :
    stream_exn (yields l tl) = stream_exn tl.
Proof. induction l as [|a l IH]; simpl; done. Qed.

  (** A loop that only appends to its accumulator collects, in order, what
      each item contributes, unless the iterator raises. *)
Lemma async_for_collect (g : A -> list B) (body : list B -> A -> list B)
      (s : stream A) (acc : list B) :
    (forall acc a, body acc a = acc ++ g a) ->
    async_for s body acc =
      match stream_exn s with
      | Some e => inl e
      | None => inr (acc ++ flat_map g (stream_items s))
      end.
Proof.
    intros Hbody. revert acc.
    induction s as [|a s IH|e]; intros acc; simpl.
    - by rewrite app_nil_r.
    - rewrite IH, Hbody. destruct (stream_exn s); [done|].
      by rewrite <- app_assoc.
    - done.
Qed.
End Iteration.

Lemma flat_map_singleton {A B} (f : A -> B) (l : list A) :
  flat_map (fun a => [f a]) l = map f l.
Proof. induction l as [|a l IH]; simpl; [done | by rewrite IH]. Qed.

(** ** What each handler computes *)

Lemma list_channels_unfold (client : TelegramClient.t) :
  list_channels client =
    (match stream_exn (TelegramClient.iter_dialogs client) with
     | Some e => HTTPException 500 ("Error listing channels: " +:+ str_exn e)
     | None =>
         JSON (map to_channel_model
                 (omap dialog_channel (stream_items (TelegramClient.iter_dialogs client))))
     end,
     [IterDialogs]).
Proof.
  unfold list_channels, try_except, client_iter_dialogs, bind, upstream, ret, lift.
  simpl.
  rewrite (async_for_collect
             (fun d => match dialog_channel d with
                       | Some c => [to_channel_model c]
                       | None => []
                       end)).
  - destruct (stream_exn _); [done|]. simpl. do 2 f_equal.
    induction (stream_items _) as [|d l IH]; simpl; [done|].
    rewrite IH. by destruct (dialog_channel d).
  - intros acc [[u|c|c]]; simpl; by rewrite ?app_nil_r.
Qed.

Lemma get_messages_unfold (client : TelegramClient.t) (channel_id limit : Z)
    (offset_id min_id max_id : option Z) :
  get_messages client channel_id limit offset_id min_id max_id =
    match TelegramClient.get_entity client (PeerId channel_id) with
    | inl e => (messages_error e, [GetEntity (PeerId channel_id)])
    | inr ent =>
        let kwargs := build_iter_kwargs limit offset_id min_id max_id in
        let it := TelegramClient.iter_messages client ent kwargs in
        (match stream_exn it with
         | Some e => messages_error e
         | None => JSON (map to_message_model (stream_items it))
         end,
         [GetEntity (PeerId channel_id); IterMessages ent kwargs])
    end.
Proof.
  unfold get_messages, try_except, client_get_entity, client_iter_messages,
    bind, upstream, ret, lift.
  simpl. destruct (TelegramClient.get_entity _ _) as [e|ent]; [done|].
  fold (build_iter_kwargs limit offset_id min_id max_id).
  rewrite (async_for_collect (fun m => [to_message_model m])).
  - destruct (stream_exn _); [done|]. simpl. by rewrite flat_map_singleton.
  - intros acc m. unfold to_message_model, message_text, sender_fields.
    by destruct (Message.sender m) as [[u|c|c]|].
Qed.

Lemma get_messages_by_username_unfold (client : TelegramClient.t)
    (username : string) (limit : Z) (offset_id min_id max_id : option Z) :
  get_messages_by_username client username limit offset_id min_id max_id =
    match TelegramClient.get_entity client (Username username) with
    | inl e => (messages_error e, [GetEntity (Username username)])
    | inr ent =>
        let kwargs := build_iter_kwargs limit offset_id min_id max_id in
        let it := TelegramClient.iter_messages client ent kwargs in
        (match stream_exn it with
         | Some e => messages_error e
         | None => JSON (map to_message_model (stream_items it))
         end,
         [GetEntity (Username username); IterMessages ent kwargs])
    end.
Proof.
  unfold get_messages_by_username, try_except, client_get_entity,
    client_iter_messages, bind, upstream, ret, lift.
  simpl. destruct (TelegramClient.get_entity _ _) as [e|ent]; [done|].
  fold (build_iter_kwargs limit offset_id min_id max_id).
  rewrite (async_for_collect (fun m => [to_message_model m])).
  - destruct (stream_exn _); [done|]. simpl. by rewrite flat_map_singleton.
  - intros acc m. unfold to_message_model, message_text, sender_fields.
    by destruct (Message.sender m) as [[u|c|c]|].
Qed.

(** Both message paths, once the query parameters are validated. *)
Lemma messages_endpoint_unfold (client : TelegramClient.t) (peer : entity_like)
    (q : Params.t) :
  messages_endpoint client peer q =
    match Query_bounded 50 1 1000 (Params.limit q) with
    | None => (RequestValidationError, [])
    | Some limit =>
        match TelegramClient.get_entity client peer with
        | inl e => (messages_error e, [GetEntity peer])
        | inr ent =>
            let kwargs :=
              build_iter_kwargs limit
                (Params.offset_id q) (Params.min_id q) (Params.max_id q) in
            let it := TelegramClient.iter_messages client ent kwargs in
            (match stream_exn it with
             | Some e => messages_error e
             | None => JSON (map to_message_model (stream_items it))
             end,
             [GetEntity peer; IterMessages ent kwargs])
        end
    end.
Proof.
  destruct peer as [channel_id|username]; simpl.
  - unfold get_messages_route. destruct (Query_bounded _ _ _ _); [|done].
    apply get_messages_unfold.
  - unfold get_messages_by_username_route. destruct (Query_bounded _ _ _ _); [|done].
    apply get_messages_by_username_unfold.
Qed.

Lemma Query_bounded_Some (d lo hi : Z) (raw : option Z) (v : Z) :
  Query_bounded d lo hi raw = Some v <->
  (raw = None /\ v = d) \/ (raw = Some v /\ lo <= v <= hi).
Proof.
  unfold Query_bounded. destruct raw as [w|].
  - destruct (Z.leb_spec lo w) as [Hlo|Hlo], (Z.leb_spec w hi) as [Hhi|Hhi];
      simpl; split; try discriminate.
    + intros [= ->]. right. split; [done | lia].
    + intros [[? _]|[? _]]; congruence.
    + intros [[? _]|[[= ->] ?]]; [done | lia].
    + intros [[? _]|[[= ->] ?]]; [done | lia].
    + intros [[? _]|[[= ->] ?]]; [done | lia].
  - split.
    + intros [= <-]. by left.
    + intros [[_ ->]|[? _]]; done.
Qed.

Lemma build_iter_kwargs_lookup (limit : Z) (offset_id min_id max_id : option Z) :
  let kwargs := build_iter_kwargs limit offset_id min_id max_id in
  kwargs !! "limit" = Some limit /\
  kwargs !! "offset_id" = offset_id /\
  kwargs !! "min_id" = min_id /\
  kwargs !! "max_id" = max_id /\
  (forall k : string,
      k <> "limit" -> k <> "offset_id" -> k <> "min_id" -> k <> "max_id" ->
      kwargs !! k = None).
Proof.
  unfold build_iter_kwargs.
  destruct offset_id, min_id, max_id; simpl;
    repeat split; intros; by simplify_map_eq.
Qed.

Lemma Forall2_map_intro {A B} (R : A -> B -> Prop) (f : A -> B) (l : list A) :
  (forall a, R a (f a)) -> Forall2 R l (map f l).
Proof. intros HR. induction l as [|a l IH]; simpl; constructor; auto. Qed.

Lemma history_client_honours_limit (history : list Message.t) :
  honours_limit (history_client history).
Proof.
  intros e kwargs n Hn Hpos. simpl. rewrite Hn.
  rewrite stream_items_yields, length_take. lia.
Qed.

(** ** Message retrieval: order and cap *)

(** C1: for every channel reference that resolves and every limit in
    [1,1000], over an upstream whose iteration honours the limit it is handed
    and ends normally, both message endpoints answer with the upstream's
    messages mapped one by one in the order they were yielded (none
    reordered, duplicated or dropped), so with at least 0 and at most [limit]
    of them. *)
Theorem messages_in_upstream_order_within_limit
    (client : TelegramClient.t) (peer : entity_like) (q : Params.t)
    (limit : Z) (ent : entity) :
  honours_limit client ->
  Params.limit q = Some limit ->
  1 <= limit <= 1000 ->
  TelegramClient.get_entity client peer = inr ent ->
  stream_exn
    (TelegramClient.iter_messages client ent
       (build_iter_kwargs limit (Params.offset_id q) (Params.min_id q) (Params.max_id q)))
    = None ->
  exists body : list MessageModel.t,
    (messages_endpoint client peer q).1 = JSON body /\
    body =
      map to_message_model
        (stream_items
           (TelegramClient.iter_messages client ent
              (build_iter_kwargs limit
                 (Params.offset_id q) (Params.min_id q) (Params.max_id q)))) /\
    0 <= Z.of_nat (length body) <= limit.
Proof.
  intros Hcap Hq Hrange Hent Hdone.
  rewrite messages_endpoint_unfold.
  assert (Query_bounded 50 1 1000 (Params.limit q) = Some limit) as ->.
  { apply Query_bounded_Some. right. by rewrite Hq. }
  rewrite Hent. simpl. rewrite Hdone.
  eexists. split; [reflexivity|]. split; [reflexivity|].
  rewrite length_map. split; [lia|].
  apply Hcap; [|lia].
  apply (build_iter_kwargs_lookup limit).
Qed.

(** Asking for 2 of the 5 messages of a channel gives the 2 newest, in the
    upstream's order. *)
Lemma messages_in_upstream_order_within_limit_witness :
  exists body : list MessageModel.t,
    (messages_endpoint (history_client five_messages) (PeerId 100)
       (Params.mk (Some 2) None None None)).1 = JSON body /\
    body = map to_message_model [text_message 5 "e"; text_message 4 "d"] /\
    0 <= Z.of_nat (length body) <= 2.
Proof.
  apply (messages_in_upstream_order_within_limit
           (history_client five_messages) (PeerId 100)
           (Params.mk (Some 2) None None None) 2 (IsChannel news)).
  - apply history_client_honours_limit.
  - reflexivity.
  - lia.
  - reflexivity.
  - reflexivity.
Defined.

(** ** Channel listing *)

(** C3: when the dialog iteration ends normally, the listing is exactly the
    dialogs whose entity is a channel, in order, each as a [ChannelModel];
    every listed model comes from a channel dialog, every channel dialog is
    listed, and dialogs of chats and users are skipped without an error. *)
Theorem list_channels_only_channels (client : TelegramClient.t) :
  stream_exn (TelegramClient.iter_dialogs client) = None ->
  exists body : list ChannelModel.t,
    (list_channels client).1 = JSON body /\
    body =
      map to_channel_model
        (omap dialog_channel (stream_items (TelegramClient.iter_dialogs client))) /\
    (forall cm : ChannelModel.t,
        cm ∈ body <->
        exists d c,
          d ∈ stream_items (TelegramClient.iter_dialogs client) /\
          Dialog.entity d = IsChannel c /\ cm = to_channel_model c) /\
    length body =
      length (filter (fun d => is_channel (Dialog.entity d) = true)
                (stream_items (TelegramClient.iter_dialogs client))).
Proof.
  intros Hdone. rewrite list_channels_unfold, Hdone. simpl.
  eexists. split; [reflexivity|]. split; [reflexivity|]. split.
  - intros cm. rewrite list_elem_of_In, in_map_iff. split.
    + intros (c & <- & Hc). apply list_elem_of_In, list_elem_of_omap in Hc.
      destruct Hc as (d & Hd & Hdc). exists d, c. split; [done|]. split; [|done].
      unfold dialog_channel in Hdc. destruct (Dialog.entity d); congruence.
    + intros (d & c & Hd & Hc & ->). exists c. split; [done|].
      apply list_elem_of_In, list_elem_of_omap. exists d. split; [done|].
      unfold dialog_channel. by rewrite Hc.
  - rewrite length_map.
    induction (stream_items _) as [|[[u|c|c]] l IH]; [done| | |].
    + rewrite filter_cons_False; [exact IH | simpl; congruence].
    + rewrite filter_cons_False; [exact IH | simpl; congruence].
    + rewrite filter_cons_True; [simpl; f_equal; exact IH | done].
Qed.

(** One channel dialog (id 100, "News", "newsch", 5000 participants) is
    listed as exactly that channel. *)
Lemma list_channels_only_channels_witness :
  exists body : list ChannelModel.t,
    (list_channels (history_client [])).1 = JSON body /\
    body = [ChannelModel.mk 100 "News" (Some "newsch") (Some 5000)] /\
    (forall cm : ChannelModel.t,
        cm ∈ body <->
        exists d c,
          d ∈ [Dialog.mk (IsChannel news)] /\
          Dialog.entity d = IsChannel c /\ cm = to_channel_model c) /\
    length body = 1%nat.
Proof.
  apply (list_channels_only_channels (history_client [])). reflexivity.
Defined.

(** ** Error classes of the message endpoints *)

(** C4, as the code has it: a resolution that fails is answered by the class
    of the exception it raised.  A [ValueError], which is how Telethon's
    [get_entity] reports an id or a handle it cannot find, gives 404 with
    "Channel not found: ..." and never 500, and the iteration is not
    started.  404 is given for a [ValueError] only: a missing target that
    the upstream signals with another class ([UsernameInvalidError],
    [ChannelInvalidError]) reaches the last clause and gives 500. *)
Theorem resolution_failure_is_404_only_for_value_error
    (client : TelegramClient.t) (peer : entity_like) (q : Params.t)
    (limit : Z) (e : exn) :
  Query_bounded 50 1 1000 (Params.limit q) = Some limit ->
  TelegramClient.get_entity client peer = inl e ->
  (messages_endpoint client peer q).2 = [GetEntity peer] /\
  (forall msg : string,
      e = ValueError msg ->
      (messages_endpoint client peer q).1 =
        HTTPException 404 ("Channel not found: " +:+ msg) /\
      status_of (messages_endpoint client peer q).1 <> Some 500) /\
  (forall cls msg : string,
      e = OtherError cls msg ->
      (messages_endpoint client peer q).1 =
        HTTPException 500 ("Error retrieving messages: " +:+ msg)) /\
  (status_of (messages_endpoint client peer q).1 = Some 404 <->
   exists msg : string, e = ValueError msg).
Proof.
  intros Hq Hent. rewrite messages_endpoint_unfold, Hq, Hent. simpl.
  split; [done|]. split; [|split].
  - intros msg ->. simpl. split; [done | discriminate].
  - intros cls msg ->. done.
  - destruct e as [msg|n msg|cls msg]; simpl; split.
    + intros _. by exists msg.
    + done.
    + discriminate.
    + intros [msg' [=]].
    + discriminate.
    + intros [msg' [=]].
Qed.

Lemma resolution_failure_is_404_only_for_value_error_witness :
  ((messages_endpoint (history_client five_messages) (PeerId 404404) no_params).1 =
     HTTPException 404 "Channel not found: Could not find the input entity" /\
   status_of
     (messages_endpoint (history_client five_messages) (PeerId 404404) no_params).1
     <> Some 500) /\
  ((messages_endpoint (history_client five_messages) (Username "nobody") no_params).1 =
     HTTPException 404 "Channel not found: No user has this username" /\
   status_of
     (messages_endpoint (history_client five_messages) (Username "nobody") no_params).1
     <> Some 500) /\
  (messages_endpoint vanished_target_client (Username "abcd") no_params).1 =
    HTTPException 500
      "Error retrieving messages: Nobody is using this username, or the username is unacceptable".
Proof.
  split; [|split].
  - destruct (resolution_failure_is_404_only_for_value_error
                (history_client five_messages) (PeerId 404404) no_params 50
                (ValueError "Could not find the input entity") eq_refl eq_refl)
      as (_ & Hvalue & _).
    apply (Hvalue "Could not find the input entity"). reflexivity.
  - destruct (resolution_failure_is_404_only_for_value_error
                (history_client five_messages) (Username "nobody") no_params 50
                (ValueError "No user has this username") eq_refl eq_refl)
      as (_ & Hvalue & _).
    apply (Hvalue "No user has this username"). reflexivity.
  - destruct (resolution_failure_is_404_only_for_value_error
                vanished_target_client (Username "abcd") no_params 50
                (OtherError "UsernameInvalidError"
                   "Nobody is using this username, or the username is unacceptable")
                eq_refl eq_refl)
      as (_ & _ & Hother & _).
    apply (Hother "UsernameInvalidError"
             "Nobody is using this username, or the username is unacceptable").
    reflexivity.
Defined.

(** C4 as stated fails: a handle the platform refuses and a channel that is
    gone are signalled by [UsernameInvalidError] and [ChannelInvalidError],
    which are not [ValueError]s; both endpoints then answer 500, not 404. *)
Lemma missing_target_can_be_500 :
  (TelegramClient.get_entity vanished_target_client (Username "abcd") =
     inl (OtherError "UsernameInvalidError"
            "Nobody is using this username, or the username is unacceptable") /\
   (messages_endpoint vanished_target_client (Username "abcd") no_params).1 =
     HTTPException 500
       "Error retrieving messages: Nobody is using this username, or the username is unacceptable" /\
   status_of (messages_endpoint vanished_target_client (Username "abcd") no_params).1
     <> Some 404) /\
  (TelegramClient.get_entity vanished_target_client (PeerId 1234567) =
     inl (OtherError "ChannelInvalidError" "Invalid channel object") /\
   (messages_endpoint vanished_target_client (PeerId 1234567) no_params).1 =
     HTTPException 500 "Error retrieving messages: Invalid channel object" /\
   status_of (messages_endpoint vanished_target_client (PeerId 1234567) no_params).1
     <> Some 404).
Proof.
  repeat split; discriminate.
Qed.

(** C5: when the first thing the upstream raises during a message request,
    in the resolution or at any point of the iteration, is a flood wait of
    [n] seconds, both endpoints answer 429 with "Rate limited. Wait n
    seconds", which is neither the 404 nor the 500 class. *)
Theorem flood_wait_is_rate_limited
    (client : TelegramClient.t) (peer : entity_like) (q : Params.t)
    (limit n : Z) (msg : string) :
  Query_bounded 50 1 1000 (Params.limit q) = Some limit ->
  upstream_failure client peer
    (build_iter_kwargs limit (Params.offset_id q) (Params.min_id q) (Params.max_id q))
    = Some (FloodWaitError n msg) ->
  (messages_endpoint client peer q).1 =
    HTTPException 429 ("Rate limited. Wait " +:+ pretty n +:+ " seconds") /\
  status_of (messages_endpoint client peer q).1 = Some 429 /\
  status_of (messages_endpoint client peer q).1 <> Some 404 /\
  status_of (messages_endpoint client peer q).1 <> Some 500.
Proof.
  intros Hq Hfail. rewrite messages_endpoint_unfold, Hq.
  unfold upstream_failure in Hfail.
  destruct (TelegramClient.get_entity client peer) as [e|ent]; simpl.
  - injection Hfail as ->. simpl. repeat split; discriminate.
  - rewrite Hfail. simpl. repeat split; discriminate.
Qed.

Lemma flood_wait_is_rate_limited_witness :
  (messages_endpoint flooded_client (Username "newsch") no_params).1 =
    HTTPException 429 "Rate limited. Wait 37 seconds" /\
  status_of (messages_endpoint flooded_client (Username "newsch") no_params).1
    = Some 429 /\
  status_of (messages_endpoint flooded_client (Username "newsch") no_params).1
    <> Some 404 /\
  status_of (messages_endpoint flooded_client (Username "newsch") no_params).1
    <> Some 500.
Proof.
  apply (flood_wait_is_rate_limited flooded_client (Username "newsch") no_params
           50 37 "A wait of 37 seconds is required");
    reflexivity.
Defined.

(** ** Query parameters *)

(** C6: a [limit] outside [1,1000] is rejected with no upstream call made;
    an absent [limit] is served as 50; and once the target resolves, the
    iteration is called with [limit] and with [offset_id], [min_id] and
    [max_id] under their own names exactly when they are present, with no
    other key and no key for an absent parameter. *)
Theorem limit_checked_first_and_pagination_forwarded
    (client : TelegramClient.t) (peer : entity_like) :
  (forall (q : Params.t) (v : Z),
      Params.limit q = Some v -> ~ (1 <= v <= 1000) ->
      messages_endpoint client peer q = (RequestValidationError, [])) /\
  (forall q : Params.t,
      Params.limit q = None ->
      messages_endpoint client peer q =
        messages_endpoint client peer
          (Params.mk (Some 50) (Params.offset_id q) (Params.min_id q) (Params.max_id q))) /\
  (forall (q : Params.t) (limit : Z) (ent : entity),
      Query_bounded 50 1 1000 (Params.limit q) = Some limit ->
      TelegramClient.get_entity client peer = inr ent ->
      exists kwargs : gmap string Z,
        (messages_endpoint client peer q).2 = [GetEntity peer; IterMessages ent kwargs] /\
        kwargs !! "limit" = Some limit /\
        kwargs !! "offset_id" = Params.offset_id q /\
        kwargs !! "min_id" = Params.min_id q /\
        kwargs !! "max_id" = Params.max_id q /\
        (forall k : string,
            k <> "limit" -> k <> "offset_id" -> k <> "min_id" -> k <> "max_id" ->
            kwargs !! k = None)).
Proof.
  split; [|split].
  - intros q v Hq Hout. rewrite messages_endpoint_unfold.
    destruct (Query_bounded 50 1 1000 (Params.limit q)) as [w|] eqn:Hw; [|done].
    apply Query_bounded_Some in Hw as [[Hnone _]|[Hsome Hin]]; [congruence|].
    rewrite Hq in Hsome. injection Hsome as ->. contradiction.
  - intros q Hq. rewrite !messages_endpoint_unfold, Hq. reflexivity.
  - intros q limit ent Hq Hent. rewrite messages_endpoint_unfold, Hq, Hent. simpl.
    eexists. split; [reflexivity|].
    apply (build_iter_kwargs_lookup limit).
Qed.

Lemma limit_checked_first_and_pagination_forwarded_witness :
  messages_endpoint (history_client five_messages) (PeerId 100)
    (Params.mk (Some 0) (Some 7) None (Some 9)) = (RequestValidationError, []) /\
  messages_endpoint (history_client five_messages) (PeerId 100)
    (Params.mk (Some 1001) None None None) = (RequestValidationError, []) /\
  messages_endpoint (history_client five_messages) (PeerId 100) no_params =
    messages_endpoint (history_client five_messages) (PeerId 100)
      (Params.mk (Some 50) None None None) /\
  exists kwargs : gmap string Z,
    (messages_endpoint (history_client five_messages) (PeerId 100)
       (Params.mk (Some 3) (Some 7) None (Some 9))).2
      = [GetEntity (PeerId 100); IterMessages (IsChannel news) kwargs] /\
    kwargs !! "limit" = Some 3 /\
    kwargs !! "offset_id" = Some 7 /\
    kwargs !! "min_id" = None /\
    kwargs !! "max_id" = Some 9 /\
    (forall k : string,
        k <> "limit" -> k <> "offset_id" -> k <> "min_id" -> k <> "max_id" ->
        kwargs !! k = None).
Proof.
  destruct (limit_checked_first_and_pagination_forwarded
              (history_client five_messages) (PeerId 100)) as (Hout & Hdef & Hfwd).
  split; [|split; [|split]].
  - apply (Hout (Params.mk (Some 0) (Some 7) None (Some 9)) 0); [reflexivity | lia].
  - apply (Hout (Params.mk (Some 1001) None None None) 1001); [reflexivity | lia].
  - apply (Hdef no_params). reflexivity.
  - apply (Hfwd (Params.mk (Some 3) (Some 7) None (Some 9)) 3 (IsChannel news));
      reflexivity.
Defined.

(** ** The per-message mapping *)

Section Mapping.
Variables (client : TelegramClient.t) (peer : entity_like) (q : Params.t).
Variables (limit : Z) (ent : entity).

Hypothesis valid_limit : Query_bounded 50 1 1000 (Params.limit q) = Some limit.
Hypothesis resolved : TelegramClient.get_entity client peer = inr ent.
Hypothesis completes :
  stream_exn
    (TelegramClient.iter_messages client ent
       (build_iter_kwargs limit
          (Params.offset_id q) (Params.min_id q) (Params.max_id q)))
  = None.

(** Whatever relates each message to its model relates the upstream's
    messages to the response body, position by position. *)
Lemma mapped_pointwise (R : Message.t -> MessageModel.t -> Prop) :
  (forall m, R m (to_message_model m)) ->
  exists body : list MessageModel.t,
    (messages_endpoint client peer q).1 = JSON body /\
    Forall2 R (stream_items
         (TelegramClient.iter_messages client ent
            (build_iter_kwargs limit
               (Params.offset_id q) (Params.min_id q) (Params.max_id q))))
      body.
Proof using valid_limit resolved completes.
  intros HR. rewrite messages_endpoint_unfold, valid_limit, resolved. simpl.
  rewrite completes.
  eexists. split; [reflexivity|]. by apply Forall2_map_intro.
Qed.

(** C2, as the code has it: the text of every returned message is the
    native text when that is not empty, the placeholder naming the media
    class when the native text is empty and the message carries media, and
    the empty string when it has neither; so it is non-empty exactly when
    the message has native text or media. *)
Theorem text_is_native_or_placeholder :
  exists body : list MessageModel.t,
    (messages_endpoint client peer q).1 = JSON body /\
    Forall2
      (fun m mm =>
         (default "" (Message.message m) <> "" ->
          MessageModel.text mm = default "" (Message.message m)) /\
         (default "" (Message.message m) = "" ->
          forall media, Message.media m = Some media ->
          MessageModel.text mm = "[Media: " +:+ type_name media +:+ "]") /\
         (default "" (Message.message m) = "" -> Message.media m = None ->
          MessageModel.text mm = "") /\
         (MessageModel.text mm <> "" <->
          default "" (Message.message m) <> "" \/ is_Some (Message.media m)))
      (stream_items
         (TelegramClient.iter_messages client ent
            (build_iter_kwargs limit
               (Params.offset_id q) (Params.min_id q) (Params.max_id q))))
      body.
Proof using valid_limit resolved completes.
  apply mapped_pointwise. intros m. simpl. unfold message_text.
  destruct (Message.media m) as [media|];
    destruct (String.eqb_spec (default "" (Message.message m)) "") as [Hnat|Hnat].
  - rewrite Hnat. split; [intros H; contradiction|].
    split; [intros _ media' [= <-]; reflexivity|].
    split; [intros _ [=]|].
    split; [intros _; right; by eexists | intros _; simpl; discriminate].
  - split; [done|]. split; [intros H; contradiction|].
    split; [intros H; contradiction|].
    split; [intros _; by left | done].
  - rewrite Hnat. split; [intros H; contradiction|].
    split; [intros _ media' [=]|]. split; [done|].
    split; [intros H; contradiction | intros [H|[media' [=]]]; contradiction].
  - split; [done|]. split; [intros H; contradiction|].
    split; [intros H; contradiction|].
    split; [intros _; by left | done].
Qed.

(** C7, as the code has it: a returned message with no native text that
    carries media has the text "[Media: <class of the media>]"; for a
    photo attachment, whose class is [MessageMediaPhoto], that is
    "[Media: MessageMediaPhoto]". *)
Theorem photo_placeholder_names_media_class :
  exists body : list MessageModel.t,
    (messages_endpoint client peer q).1 = JSON body /\
    Forall2
      (fun m mm =>
         default "" (Message.message m) = "" ->
         (Message.media m = Some MessageMediaPhoto ->
          MessageModel.text mm = "[Media: MessageMediaPhoto]") /\
         (forall media, Message.media m = Some media ->
          MessageModel.text mm = "[Media: " +:+ type_name media +:+ "]"))
      (stream_items
         (TelegramClient.iter_messages client ent
            (build_iter_kwargs limit
               (Params.offset_id q) (Params.min_id q) (Params.max_id q))))
      body.
Proof using valid_limit resolved completes.
  apply mapped_pointwise. intros m Hnat. simpl. unfold message_text.
  rewrite Hnat. split.
  - intros ->. reflexivity.
  - intros media ->. reflexivity.
Qed.

(** C8: the sender fields of every returned message are the id and the
    username of its sender when that is a user or a channel, and both null
    for a basic-chat sender and for no sender. *)
Theorem sender_fields_by_sender_kind :
  exists body : list MessageModel.t,
    (messages_endpoint client peer q).1 = JSON body /\
    Forall2
      (fun m mm =>
         match Message.sender m with
         | Some (IsUser u) =>
             MessageModel.sender_id mm = Some (User.id u) /\
             MessageModel.sender_username mm = User.username u
         | Some (IsChannel c) =>
             MessageModel.sender_id mm = Some (Channel.id c) /\
             MessageModel.sender_username mm = Channel.username c
         | Some (IsChat _) | None =>
             MessageModel.sender_id mm = None /\
             MessageModel.sender_username mm = None
         end)
      (stream_items
         (TelegramClient.iter_messages client ent
            (build_iter_kwargs limit
               (Params.offset_id q) (Params.min_id q) (Params.max_id q))))
      body.
Proof using valid_limit resolved completes.
  apply mapped_pointwise. intros m. simpl.
  destruct (Message.sender m) as [[u|c|c]|]; simpl; done.
Qed.
End Mapping.

(** A caption-less photo, a captioned photo, a plain text and a message with
    neither text nor media, through the by-id endpoint. *)
Lemma text_is_native_or_placeholder_witness :
  exists body : list MessageModel.t,
    (messages_endpoint
       (fixed_client (inr (IsChannel news))
          (yields [photo_message; captioned_photo; text_message 5 "e"; silent_message]
             Done)
          Done)
       (PeerId 100) no_params).1 = JSON body /\
    Forall2
      (fun m mm =>
         (default "" (Message.message m) <> "" ->
          MessageModel.text mm = default "" (Message.message m)) /\
         (default "" (Message.message m) = "" ->
          forall media, Message.media m = Some media ->
          MessageModel.text mm = "[Media: " +:+ type_name media +:+ "]") /\
         (default "" (Message.message m) = "" -> Message.media m = None ->
          MessageModel.text mm = "") /\
         (MessageModel.text mm <> "" <->
          default "" (Message.message m) <> "" \/ is_Some (Message.media m)))
      [photo_message; captioned_photo; text_message 5 "e"; silent_message] body.
Proof.
  apply (text_is_native_or_placeholder
           (fixed_client (inr (IsChannel news))
              (yields [photo_message; captioned_photo; text_message 5 "e"; silent_message]
                 Done)
              Done)
           (PeerId 100) no_params 50 (IsChannel news));
    reflexivity.
Defined.

(** C2 as stated fails: a message with neither native text nor media is
    returned with an empty [text]. *)
Lemma empty_text_is_returned :
  ~ (forall (client : TelegramClient.t) (peer : entity_like) (q : Params.t)
            (body : list MessageModel.t),
        (messages_endpoint client peer q).1 = JSON body ->
        Forall (fun mm => MessageModel.text mm <> "") body).
Proof.
  intros Hall.
  specialize (Hall
    (fixed_client (inr (IsChannel news)) (Yield silent_message Done) Done)
    (PeerId 100) no_params
    [MessageModel.mk 7 1700000007 "" None None None None] eq_refl).
  apply Forall_cons in Hall as [Htext _]. by apply Htext.
Qed.

Lemma photo_placeholder_names_media_class_witness :
  exists body : list MessageModel.t,
    (messages_endpoint
       (fixed_client (inr (IsChannel news)) (Yield photo_message Done) Done)
       (Username "newsch") no_params).1 = JSON body /\
    Forall2
      (fun m mm =>
         default "" (Message.message m) = "" ->
         (Message.media m = Some MessageMediaPhoto ->
          MessageModel.text mm = "[Media: MessageMediaPhoto]") /\
         (forall media, Message.media m = Some media ->
          MessageModel.text mm = "[Media: " +:+ type_name media +:+ "]"))
      [photo_message] body.
Proof.
  apply (photo_placeholder_names_media_class
           (fixed_client (inr (IsChannel news)) (Yield photo_message Done) Done)
           (Username "newsch") no_params 50 (IsChannel news));
    reflexivity.
Defined.

(** C7 as stated fails: a photo without native text is returned with the
    text "[Media: MessageMediaPhoto]", not "[Media: Photo]". *)
Lemma photo_placeholder_is_not_Photo :
  Message.message photo_message = None /\
  Message.media photo_message = Some MessageMediaPhoto /\
  exists mm : MessageModel.t,
    (messages_endpoint
       (fixed_client (inr (IsChannel news)) (Yield photo_message Done) Done)
       (PeerId 100) no_params).1 = JSON [mm] /\
    MessageModel.text mm = "[Media: MessageMediaPhoto]" /\
    MessageModel.text mm <> "[Media: Photo]".
Proof.
  split; [reflexivity|]. split; [reflexivity|].
  exists (MessageModel.mk 8 1700000008 "[Media: MessageMediaPhoto]" None None (Some 3) None).
  split; [reflexivity|]. split; [reflexivity | discriminate].
Qed.

Lemma sender_fields_by_sender_kind_witness :
  exists body : list MessageModel.t,
    (messages_endpoint
       (fixed_client (inr (IsChannel news)) (yields mixed_senders Done) Done)
       (PeerId 100) no_params).1 = JSON body /\
    Forall2
      (fun m mm =>
         match Message.sender m with
         | Some (IsUser u) =>
             MessageModel.sender_id mm = Some (User.id u) /\
             MessageModel.sender_username mm = User.username u
         | Some (IsChannel c) =>
             MessageModel.sender_id mm = Some (Channel.id c) /\
             MessageModel.sender_username mm = Channel.username c
         | Some (IsChat _) | None =>
             MessageModel.sender_id mm = None /\
             MessageModel.sender_username mm = None
         end)
      mixed_senders body.
Proof.
  apply (sender_fields_by_sender_kind
           (fixed_client (inr (IsChannel news)) (yields mixed_senders Done) Done)
           (PeerId 100) no_params 50 (IsChannel news));
    reflexivity.
Defined.

(** ** The two variants *)

(** C9: whenever the numeric id and the handle resolve alike (to the same
    entity, or by raising the same exception), the two handlers give the same
    response for every limit and every combination of pagination parameters:
    the same message list, or the same status and detail.  Their upstream
    calls differ in the resolution call only. *)
Theorem variants_differ_only_in_resolution
    (client : TelegramClient.t) (channel_id : Z) (username : string) :
  TelegramClient.get_entity client (PeerId channel_id) =
    TelegramClient.get_entity client (Username username) ->
  (forall (limit : Z) (offset_id min_id max_id : option Z),
      (get_messages client channel_id limit offset_id min_id max_id).1 =
        (get_messages_by_username client username limit offset_id min_id max_id).1 /\
      drop 1 (get_messages client channel_id limit offset_id min_id max_id).2 =
        drop 1 (get_messages_by_username client username limit offset_id min_id max_id).2) /\
  (forall q : Params.t,
      (get_messages_route client channel_id q).1 =
        (get_messages_by_username_route client username q).1).
Proof.
  intros Hsame.
  assert (forall limit offset_id min_id max_id,
      (get_messages client channel_id limit offset_id min_id max_id).1 =
        (get_messages_by_username client username limit offset_id min_id max_id).1 /\
      drop 1 (get_messages client channel_id limit offset_id min_id max_id).2 =
        drop 1 (get_messages_by_username client username limit offset_id min_id max_id).2)
    as Hhandlers.
  { intros limit offset_id min_id max_id.
    rewrite get_messages_unfold, get_messages_by_username_unfold, Hsame.
    by destruct (TelegramClient.get_entity client (Username username)). }
  split; [exact Hhandlers|].
  intros q. unfold get_messages_route, get_messages_by_username_route.
  destruct (Query_bounded 50 1 1000 (Params.limit q)); [|done].
  apply Hhandlers.
Qed.

Lemma variants_differ_only_in_resolution_witness :
  (forall (limit : Z) (offset_id min_id max_id : option Z),
      (get_messages (history_client five_messages) 100 limit offset_id min_id max_id).1 =
        (get_messages_by_username (history_client five_messages) "newsch"
           limit offset_id min_id max_id).1 /\
      drop 1 (get_messages (history_client five_messages) 100
                limit offset_id min_id max_id).2 =
        drop 1 (get_messages_by_username (history_client five_messages) "newsch"
                  limit offset_id min_id max_id).2) /\
  (forall q : Params.t,
      (get_messages_route (history_client five_messages) 100 q).1 =
        (get_messages_by_username_route (history_client five_messages) "newsch" q).1).
Proof.
  apply (variants_differ_only_in_resolution (history_client five_messages) 100 "newsch").
  reflexivity.
Defined.

(** ** Failure part-way through an iteration *)

(** C10: when the upstream iteration raises after having yielded some items,
    the listing answers with the 500 error alone and a message endpoint with
    the error of the exception alone; the response is an error whatever was
    yielded before, never a list, and the handler has made no upstream call
    beyond those of a successful request. *)
Theorem failure_discards_partial_results (client : TelegramClient.t) :
  (forall (pre : list Dialog.t) (e : exn),
      TelegramClient.iter_dialogs client = yields pre (Raise e) ->
      list_channels client =
        (HTTPException 500 ("Error listing channels: " +:+ str_exn e), [IterDialogs])) /\
  (forall (peer : entity_like) (q : Params.t) (limit : Z) (ent : entity)
          (pre : list Message.t) (e : exn),
      Query_bounded 50 1 1000 (Params.limit q) = Some limit ->
      TelegramClient.get_entity client peer = inr ent ->
      TelegramClient.iter_messages client ent
        (build_iter_kwargs limit (Params.offset_id q) (Params.min_id q) (Params.max_id q))
        = yields pre (Raise e) ->
      messages_endpoint client peer q =
        (messages_error e,
         [GetEntity peer;
          IterMessages ent
            (build_iter_kwargs limit
               (Params.offset_id q) (Params.min_id q) (Params.max_id q))]) /\
      is_error (messages_endpoint client peer q).1 = true /\
      (forall body, (messages_endpoint client peer q).1 <> JSON body)).
Proof.
  split.
  - intros pre e Hit. rewrite list_channels_unfold, Hit, stream_exn_yields. done.
  - intros peer q limit ent pre e Hq Hent Hit.
    rewrite messages_endpoint_unfold, Hq, Hent. simpl.
    rewrite Hit, stream_exn_yields. simpl.
    split; [done|]. destruct e; simpl; split; done.
Qed.

Lemma failure_discards_partial_results_witness :
  list_channels broken_client =
    (HTTPException 500 "Error listing channels: Connection lost", [IterDialogs]) /\
  messages_endpoint broken_client (PeerId 100) no_params =
    (HTTPException 500 "Error retrieving messages: Connection lost",
     [GetEntity (PeerId 100);
      IterMessages (IsChannel news) (build_iter_kwargs 50 None None None)]) /\
  is_error (messages_endpoint broken_client (PeerId 100) no_params).1 = true /\
  (forall body, (messages_endpoint broken_client (PeerId 100) no_params).1 <> JSON body).
Proof.
  destruct (failure_discards_partial_results broken_client) as [Hlist Hmsgs].
  split.
  - apply (Hlist [Dialog.mk (IsChannel news); Dialog.mk (IsUser alice)]
             (OtherError "ConnectionError" "Connection lost")).
    reflexivity.
  - apply (Hmsgs (PeerId 100) no_params 50 (IsChannel news)
             [text_message 5 "e"; text_message 4 "d"]
             (OtherError "ConnectionError" "Connection lost"));
      reflexivity.
Defined.

(** * Further properties of the endpoints *)

(** ** The listing *)

(** The listing makes the single call [iter_dialogs]; it answers 200 when
    the iteration ends normally and 500 when it ends with an exception of
    [exn], that is with any subclass of [Exception]: its one [except] clause
    knows no other status.  (A [BaseException] such as
    [asyncio.CancelledError] is not caught by that clause and is outside
    this statement.) *)
Theorem listing_status_is_200_or_500 (client : TelegramClient.t) :
  (list_channels client).2 = [IterDialogs] /\
  (stream_exn (TelegramClient.iter_dialogs client) = None ->
   status_of (list_channels client).1 = Some 200) /\
  (forall e : exn,
      stream_exn (TelegramClient.iter_dialogs client) = Some e ->
      (list_channels client).1 =
        HTTPException 500 ("Error listing channels: " +:+ str_exn e) /\
      status_of (list_channels client).1 = Some 500).
Proof.
  rewrite list_channels_unfold. simpl. split; [done|]. split.
  - by intros ->.
  - by intros e ->.
Qed.

Lemma listing_status_is_200_or_500_witness :
  status_of (list_channels (history_client [])).1 = Some 200 /\
  (list_channels broken_client).1 =
    HTTPException 500 "Error listing channels: Connection lost" /\
  status_of (list_channels broken_client).1 = Some 500.
Proof.
  split.
  - apply (listing_status_is_200_or_500 (history_client [])). reflexivity.
  - apply (proj2 (proj2 (listing_status_is_200_or_500 broken_client))
             (OtherError "ConnectionError" "Connection lost")).
    reflexivity.
Defined.

(** A flood wait raised while the dialogs are listed is not told apart: the
    listing answers 500 with the text of the exception, where the message
    endpoints answer 429. *)
Theorem listing_flood_wait_is_500 (client : TelegramClient.t) (n : Z) (msg : string) :
  stream_exn (TelegramClient.iter_dialogs client) = Some (FloodWaitError n msg) ->
  (list_channels client).1 = HTTPException 500 ("Error listing channels: " +:+ msg) /\
  status_of (list_channels client).1 <> Some 429.
Proof.
  intros Hflood. rewrite list_channels_unfold, Hflood. simpl. split; done.
Qed.

Lemma listing_flood_wait_is_500_witness :
  (list_channels flooded_client).1 =
    HTTPException 500 "Error listing channels: A wait of 37 seconds is required" /\
  status_of (list_channels flooded_client).1 <> Some 429.
Proof.
  apply (listing_flood_wait_is_500 flooded_client 37 "A wait of 37 seconds is required").
  reflexivity.
Defined.

(** When the dialog iteration ends normally, the listing is empty exactly
    when no dialog is a channel; an account without channels gets 200 and
    [[]], not an error. *)
Theorem listing_empty_iff_no_channel (client : TelegramClient.t) :
  stream_exn (TelegramClient.iter_dialogs client) = None ->
  ((list_channels client).1 = JSON [] <->
   Forall (fun d => is_channel (Dialog.entity d) = false)
     (stream_items (TelegramClient.iter_dialogs client))).
Proof.
  intros Hdone. rewrite list_channels_unfold, Hdone. simpl.
  induction (stream_items _) as [|[[u|c|c]] l IH]; simpl.
  - split; [constructor | done].
  - rewrite Forall_cons. split.
    + intros H. split; [done | by apply IH].
    + intros [_ H]. by apply IH.
  - rewrite Forall_cons. split.
    + intros H. split; [done | by apply IH].
    + intros [_ H]. by apply IH.
  - rewrite Forall_cons. split.
    + intros [=].
    + intros [[=] _].
Qed.

Lemma listing_empty_iff_no_channel_witness :
  (list_channels
     (fixed_client (inr (IsChannel news)) Done
        (yields [Dialog.mk (IsUser alice); Dialog.mk (IsChat (Chat.mk 12 "Family"))]
           Done))).1 = JSON [] <->
  Forall (fun d => is_channel (Dialog.entity d) = false)
    [Dialog.mk (IsUser alice); Dialog.mk (IsChat (Chat.mk 12 "Family"))].
Proof.
  apply (listing_empty_iff_no_channel
           (fixed_client (inr (IsChannel news)) Done
              (yields [Dialog.mk (IsUser alice); Dialog.mk (IsChat (Chat.mk 12 "Family"))]
                 Done))).
  reflexivity.
Defined.

(** ** The message endpoints *)

(** A request whose parameters have parsed as integers, served over an
    upstream that ends normally or raises an exception of [exn] (a subclass
    of [Exception]), is answered 200, 404, 422, 429 or 500, and 422 exactly
    when the limit fails its bounds.  (A parameter that does not parse as an
    integer is refused by the framework before [Params.t] exists; a
    [BaseException] is caught by no clause of the handlers.) *)
Theorem messages_status_codes
    (client : TelegramClient.t) (peer : entity_like) (q : Params.t) :
  status_of (messages_endpoint client peer q).1 ∈ [Some 200; Some 404; Some 422; Some 429; Some 500] /\
  (status_of (messages_endpoint client peer q).1 = Some 422 <->
   Query_bounded 50 1 1000 (Params.limit q) = None).
Proof.
  rewrite messages_endpoint_unfold.
  destruct (Query_bounded 50 1 1000 (Params.limit q)) as [limit|]; simpl.
  - destruct (TelegramClient.get_entity client peer) as [e|ent]; simpl.
    + destruct e; simpl; (split; [set_solver | split; discriminate]).
    + destruct (stream_exn _) as [e|]; simpl;
        [destruct e; simpl|]; (split; [set_solver | split; discriminate]).
  - split; [set_solver | done].
Qed.

Lemma messages_status_codes_witness :
  status_of
    (messages_endpoint (history_client five_messages) (PeerId 100)
       (Params.mk (Some 1001) None None None)).1
    ∈ [Some 200; Some 404; Some 422; Some 429; Some 500] /\
  (status_of
     (messages_endpoint (history_client five_messages) (PeerId 100)
        (Params.mk (Some 1001) None None None)).1 = Some 422 <->
   Query_bounded 50 1 1000 (Some 1001) = None).
Proof.
  apply (messages_status_codes (history_client five_messages) (PeerId 100)
           (Params.mk (Some 1001) None None None)).
Defined.

(** A request with a valid limit is answered with a list exactly when the
    upstream raises nothing, neither in the resolution nor in the iteration. *)
Theorem messages_list_iff_no_failure
    (client : TelegramClient.t) (peer : entity_like) (q : Params.t) (limit : Z) :
  Query_bounded 50 1 1000 (Params.limit q) = Some limit ->
  ((exists body, (messages_endpoint client peer q).1 = JSON body) <->
   upstream_failure client peer
     (build_iter_kwargs limit (Params.offset_id q) (Params.min_id q) (Params.max_id q))
     = None).
Proof.
  intros Hq. rewrite messages_endpoint_unfold, Hq. unfold upstream_failure.
  destruct (TelegramClient.get_entity client peer) as [e|ent]; simpl.
  - split; [|done]. intros [body Hbody]. by destruct e.
  - destruct (stream_exn _) as [e|]; simpl.
    + split; [|done]. intros [body Hbody]. by destruct e.
    + split; [done|]. intros _. by eexists.
Qed.

Lemma messages_list_iff_no_failure_witness :
  (exists body,
      (messages_endpoint (history_client five_messages) (Username "newsch") no_params).1
        = JSON body) <->
  upstream_failure (history_client five_messages) (Username "newsch")
    (build_iter_kwargs 50 None None None) = None.
Proof.
  apply (messages_list_iff_no_failure (history_client five_messages)
           (Username "newsch") no_params 50).
  reflexivity.
Defined.

(** The [except ValueError] clause covers the whole handler: a [ValueError]
    raised by the iteration, after the channel has resolved and whatever was
    yielded before, is answered 404 "Channel not found" as well. *)
Theorem value_error_during_iteration_is_404
    (client : TelegramClient.t) (peer : entity_like) (q : Params.t)
    (limit : Z) (ent : entity) (pre : list Message.t) (msg : string) :
  Query_bounded 50 1 1000 (Params.limit q) = Some limit ->
  TelegramClient.get_entity client peer = inr ent ->
  TelegramClient.iter_messages client ent
    (build_iter_kwargs limit (Params.offset_id q) (Params.min_id q) (Params.max_id q))
    = yields pre (Raise (ValueError msg)) ->
  (messages_endpoint client peer q).1 =
    HTTPException 404 ("Channel not found: " +:+ msg).
Proof.
  intros Hq Hent Hit. rewrite messages_endpoint_unfold, Hq, Hent. simpl.
  by rewrite Hit, stream_exn_yields.
Qed.

Lemma value_error_during_iteration_is_404_witness :
  (messages_endpoint
     (fixed_client (inr (IsChannel news))
        (yields [text_message 5 "e"] (Raise (ValueError "bad offset"))) Done)
     (PeerId 100) no_params).1 =
    HTTPException 404 "Channel not found: bad offset".
Proof.
  apply (value_error_during_iteration_is_404
           (fixed_client (inr (IsChannel news))
              (yields [text_message 5 "e"] (Raise (ValueError "bad offset"))) Done)
           (PeerId 100) no_params 50 (IsChannel news)
           [text_message 5 "e"] "bad offset");
    reflexivity.
Defined.

(** A failure whose class is a subclass of [Exception] but neither a
    [ValueError] nor a flood wait (an [OtherError]), in the resolution or in
    the iteration, is caught by the last clause and answered 500 with the
    raw text of the exception after "Error retrieving messages: ". *)
Theorem other_failure_is_500
    (client : TelegramClient.t) (peer : entity_like) (q : Params.t)
    (limit : Z) (cls msg : string) :
  Query_bounded 50 1 1000 (Params.limit q) = Some limit ->
  upstream_failure client peer
    (build_iter_kwargs limit (Params.offset_id q) (Params.min_id q) (Params.max_id q))
    = Some (OtherError cls msg) ->
  (messages_endpoint client peer q).1 =
    HTTPException 500 ("Error retrieving messages: " +:+ msg).
Proof.
  intros Hq Hfail. rewrite messages_endpoint_unfold, Hq.
  unfold upstream_failure in Hfail.
  destruct (TelegramClient.get_entity client peer) as [e|ent]; simpl.
  - by injection Hfail as ->.
  - by rewrite Hfail.
Qed.

Lemma other_failure_is_500_witness :
  (messages_endpoint broken_client (Username "newsch") no_params).1 =
    HTTPException 500 "Error retrieving messages: Connection lost".
Proof.
  apply (other_failure_is_500 broken_client (Username "newsch") no_params 50
           "ConnectionError" "Connection lost");
    reflexivity.
Defined.


(** Whatever the request, the upstream is never asked for fewer than 1 or
    more than 1000 messages: every iteration a message endpoint starts
    carries a [limit] within the bounds. *)
Theorem upstream_limit_within_bounds
    (client : TelegramClient.t) (peer : entity_like) (q : Params.t)
    (ent : entity) (kwargs : gmap string Z) :
  IterMessages ent kwargs ∈ (messages_endpoint client peer q).2 ->
  exists limit : Z, kwargs !! "limit" = Some limit /\ 1 <= limit <= 1000.
Proof.
  rewrite messages_endpoint_unfold.
  destruct (Query_bounded 50 1 1000 (Params.limit q)) as [limit|] eqn:Hq; simpl.
  - assert (1 <= limit <= 1000) as Hrange.
    { apply Query_bounded_Some in Hq as [[_ ->]|[_ ?]]; lia. }
    destruct (TelegramClient.get_entity client peer) as [e|ent']; simpl.
    + intros Hin. apply list_elem_of_singleton in Hin. discriminate.
    + intros Hin. apply elem_of_cons in Hin as [[=]|Hin].
      apply list_elem_of_singleton in Hin. injection Hin as -> ->.
      exists limit. split; [|done]. apply (build_iter_kwargs_lookup limit).
  - intros Hin. by apply elem_of_nil in Hin.
Qed.

Lemma upstream_limit_within_bounds_witness :
  exists limit : Z,
    build_iter_kwargs 50 (Some 7) None None !! "limit" = Some limit /\
    1 <= limit <= 1000.
Proof.
  apply (upstream_limit_within_bounds (history_client five_messages) (PeerId 100)
           (Params.mk None (Some 7) None None) (IsChannel news)).
  simpl. apply list_elem_of_further, list_elem_of_here.
Defined.

(** The id, date, view count and forward count of every returned message are
    those of the upstream message at the same position, absent counts
    staying null. *)
Theorem message_fields_pass_through
    (client : TelegramClient.t) (peer : entity_like) (q : Params.t)
    (limit : Z) (ent : entity) :
  Query_bounded 50 1 1000 (Params.limit q) = Some limit ->
  TelegramClient.get_entity client peer = inr ent ->
  stream_exn
    (TelegramClient.iter_messages client ent
       (build_iter_kwargs limit (Params.offset_id q) (Params.min_id q) (Params.max_id q)))
    = None ->
  exists body : list MessageModel.t,
    (messages_endpoint client peer q).1 = JSON body /\
    Forall2
      (fun m mm =>
         MessageModel.id mm = Message.id m /\
         MessageModel.date mm = Message.date m /\
         MessageModel.views mm = Message.views m /\
         MessageModel.forwards mm = Message.forwards m)
      (stream_items
         (TelegramClient.iter_messages client ent
            (build_iter_kwargs limit
               (Params.offset_id q) (Params.min_id q) (Params.max_id q))))
      body.
Proof.
  intros Hq Hent Hdone.
  apply (mapped_pointwise client peer q limit ent Hq Hent Hdone).
  intros m. simpl. done.
Qed.

Lemma message_fields_pass_through_witness :
  exists body : list MessageModel.t,
    (messages_endpoint
       (fixed_client (inr (IsChannel news))
          (yields [photo_message; text_message 5 "e"; silent_message] Done) Done)
       (PeerId 100) no_params).1 = JSON body /\
    Forall2
      (fun m mm =>
         MessageModel.id mm = Message.id m /\
         MessageModel.date mm = Message.date m /\
         MessageModel.views mm = Message.views m /\
         MessageModel.forwards mm = Message.forwards m)
      [photo_message; text_message 5 "e"; silent_message] body.
Proof.
  apply (message_fields_pass_through
           (fixed_client (inr (IsChannel news))
              (yields [photo_message; text_message 5 "e"; silent_message] Done) Done)
           (PeerId 100) no_params 50 (IsChannel news));
    reflexivity.
Defined.

(** * The credentials and the setup script *)

(** ** Credentials of the server (main.py, lines 17-26) *)

(** The server refuses to load, with its "must be set" [ValueError], when
    either credential is unset or empty.  When it loads, the client is built
    from the integer value of a non-empty [TELEGRAM_API_ID], from
    [TELEGRAM_API_HASH] as it is, and from [TELEGRAM_SESSION_NAME] as it is
    when that is set, even to the empty string; "telegram_session" is used
    only when it is unset. *)
Theorem server_credentials (py_int : string -> exn + Z) (environ : gmap string string) :
  (credentials_missing environ = true ->
   main_module_init py_int environ =
     inl (ValueError
            "TELEGRAM_API_ID and TELEGRAM_API_HASH must be set in environment variables")) /\
  (forall args : ClientArgs.t,
      main_module_init py_int environ = inr args ->
      credentials_missing environ = false /\
      (exists api_id : string,
          environ !! "TELEGRAM_API_ID" = Some api_id /\
          py_int api_id = inr (ClientArgs.api_id args)) /\
      environ !! "TELEGRAM_API_HASH" = Some (ClientArgs.api_hash args) /\
      ClientArgs.session args =
        default "telegram_session" (environ !! "TELEGRAM_SESSION_NAME")).
Proof.
  unfold main_module_init, credentials_missing, getenv, getenv_default, str_truthy.
  destruct (environ !! "TELEGRAM_API_ID") as [api_id|];
    destruct (environ !! "TELEGRAM_API_HASH") as [api_hash|]; simpl.
  - destruct (String.eqb api_id ""), (String.eqb api_hash ""); simpl;
      (split; [done|]); intros args Hinit; try discriminate.
    destruct (py_int api_id) as [e|n] eqn:Hint; [discriminate|].
    injection Hinit as <-. simpl.
    split; [done|]. split; [by exists api_id | done].
  - split; [done | intros args [=]].
  - split; [done | intros args [=]].
  - split; [done | intros args [=]].
Qed.

Lemma server_credentials_witness :
  main_module_init example_int (<[ "TELEGRAM_API_ID" := "" ]> example_environ) =
    inl (ValueError
           "TELEGRAM_API_ID and TELEGRAM_API_HASH must be set in environment variables") /\
  (credentials_missing (<[ "TELEGRAM_SESSION_NAME" := "" ]> example_environ) = false /\
   (exists api_id : string,
       (<[ "TELEGRAM_SESSION_NAME" := "" ]> example_environ) !! "TELEGRAM_API_ID"
         = Some api_id /\
       example_int api_id = inr 12345) /\
   (<[ "TELEGRAM_SESSION_NAME" := "" ]> example_environ) !! "TELEGRAM_API_HASH"
     = Some "0123456789abcdef" /\
   "" = default "telegram_session"
          ((<[ "TELEGRAM_SESSION_NAME" := "" ]> example_environ)
             !! "TELEGRAM_SESSION_NAME")).
Proof.
  split.
  - apply (server_credentials example_int (<[ "TELEGRAM_API_ID" := "" ]> example_environ)).
    reflexivity.
  - apply (proj2 (server_credentials example_int
                    (<[ "TELEGRAM_SESSION_NAME" := "" ]> example_environ))
             (ClientArgs.mk "" 12345 "0123456789abcdef")).
    reflexivity.
Defined.

(** ** The setup script (setup_telegram.py) *)

Ltac script_unfold :=
  unfold setup_script, setup_main, script_bind, script_ret, called, print, input,
    raising_of, except_password_needed, getenv, getenv_default, str_truthy,
    calls_of, prompts_of.

(** One case split on the innermost scrutinee of the goal. *)
Ltac script_case :=
  match goal with
  | |- context [match ?x with _ => _ end] =>
      lazymatch x with
      | context [match _ with _ => _ end] => fail
      | _ => destruct x eqn:?
      end
  end.

(** Every run of the script, one goal per path through it. *)
Ltac script_run := script_unfold; repeat (cbn -[String.append]; try script_case).

Ltac script_done :=
  intros;
  repeat match goal with
         | H : context [negb (negb _)] |- _ => rewrite !negb_involutive in H
         end;
  repeat match goal with
         | H : ?b = _, H' : context [?b] |- _ =>
             lazymatch type of b with bool => rewrite H in H'; simpl in H' end
         end;
  simplify_eq;
  repeat match goal with u : unit |- _ => destruct u end;
  try done; try congruence; try lia.

(** Membership in an explicit list, as a goal or as a hypothesis. *)
Ltac in_list :=
  simpl;
  first
    [ by repeat first [apply list_elem_of_here | apply list_elem_of_further]
    | match goal with
      | H : _ ∈ _ |- _ =>
          repeat (apply elem_of_cons in H as [H|H]; [try discriminate|]);
          try (by apply elem_of_nil in H); simplify_eq; done
      end ].

Ltac split_membership H :=
  try (by apply elem_of_nil in H);
  repeat (apply elem_of_cons in H as [H|H]; [try discriminate|]);
  try (by apply elem_of_nil in H).

(** The script and the server read their credentials alike: when one of
    them is unset or empty the script prints its error and exits with
    status 1 before doing anything else; whenever the server loads, the
    script builds its client from the same session name, id and hash; and an
    [API_ID] the server cannot read as an integer ends the script with that
    same exception. *)
Theorem setup_and_server_share_credentials
    (py_int : string -> exn + Z) (environ : gmap string string)
    (client : AuthClient.t) (stdin : list string) :
  (credentials_missing environ = true ->
   setup_script py_int environ client stdin =
     (Exit 1,
      [Printed "Error: TELEGRAM_API_ID and TELEGRAM_API_HASH must be set in .env file"])) /\
  (forall args : ClientArgs.t,
      main_module_init py_int environ = inr args ->
      exists rest : list event,
        (setup_script py_int environ client stdin).2 =
          Called (Construct (ClientArgs.session args) (ClientArgs.api_id args)
                    (ClientArgs.api_hash args)) :: rest) /\
  (forall e : exn,
      credentials_missing environ = false ->
      main_module_init py_int environ = inl e ->
      setup_script py_int environ client stdin = (Traceback (Uncaught e), [])).
Proof.
  unfold main_module_init, credentials_missing.
  split; [|split].
  - script_run; script_done.
  - intros args. script_run; script_done; by eexists.
  - intros e. script_run; script_done.
Qed.

Lemma setup_and_server_share_credentials_witness :
  setup_script example_int ∅ two_step_client ["+15550100"] =
    (Exit 1,
     [Printed "Error: TELEGRAM_API_ID and TELEGRAM_API_HASH must be set in .env file"]) /\
  (exists rest : list event,
      (setup_script example_int example_environ authorized_client []).2 =
        Called (Construct "telegram_session" 12345 "0123456789abcdef") :: rest) /\
  setup_script example_int (<[ "TELEGRAM_API_ID" := "12x" ]> example_environ)
    authorized_client [] =
    (Traceback (Uncaught (ValueError "invalid literal for int() with base 10")), []).
Proof.
  split; [|split].
  - apply (setup_and_server_share_credentials example_int ∅ two_step_client ["+15550100"]).
    reflexivity.
  - apply (proj1 (proj2 (setup_and_server_share_credentials
                           example_int example_environ authorized_client []))
             (ClientArgs.mk "telegram_session" 12345 "0123456789abcdef")).
    reflexivity.
  - apply (setup_and_server_share_credentials example_int
             (<[ "TELEGRAM_API_ID" := "12x" ]> example_environ) authorized_client []);
      reflexivity.
Defined.

(** The script's own code calls [input()] at most three times (phone, code,
    password), at most twice when [TELEGRAM_PHONE] is set, and never on a
    session that is already authorized, where it makes no login call of its
    own either.  What [client.start()] reads from stdin by itself is not
    counted: [prompts_of] holds the prompts of the script's own lines. *)
Theorem setup_prompts_at_most_three_times
    (py_int : string -> exn + Z) (environ : gmap string string)
    (client : AuthClient.t) (stdin : list string) :
  (length (prompts_of (setup_script py_int environ client stdin).2) <= 3)%nat /\
  (str_truthy (environ !! "TELEGRAM_PHONE") = true ->
   (length (prompts_of (setup_script py_int environ client stdin).2) <= 2)%nat) /\
  (AuthClient.is_user_authorized client = inr true ->
   prompts_of (setup_script py_int environ client stdin).2 = [] /\
   Forall (fun c => is_login_call c = false)
     (calls_of (setup_script py_int environ client stdin).2)).
Proof.
  split; [|split].
  - script_run; script_done.
  - script_run; script_done.
  - script_run; script_done; split; try done; repeat constructor.
Qed.

Lemma setup_prompts_at_most_three_times_witness :
  (length (prompts_of
             (setup_script example_int environ_with_phone two_step_client
                ["24680"; "hunter2"; "unread"]).2) <= 2)%nat /\
  (prompts_of (setup_script example_int example_environ authorized_client ["unread"]).2
     = [] /\
   Forall (fun c => is_login_call c = false)
     (calls_of (setup_script example_int example_environ authorized_client ["unread"]).2)).
Proof.
  split.
  - apply (setup_prompts_at_most_three_times example_int environ_with_phone
             two_step_client ["24680"; "hunter2"; "unread"]).
    reflexivity.
  - apply (setup_prompts_at_most_three_times example_int example_environ
             authorized_client ["unread"]).
    reflexivity.
Defined.

(** The script closes the connection only at the end of a run without
    failure: a run that exits with status 0 has called [disconnect] and
    printed "Setup complete!" last, and a run that ends in an exception has
    called [disconnect] only if it is [disconnect] itself that raised.  A
    failure anywhere before leaves the connection open. *)
Theorem setup_disconnects_only_on_success
    (py_int : string -> exn + Z) (environ : gmap string string)
    (client : AuthClient.t) (stdin : list string) :
  ((setup_script py_int environ client stdin).1 = Exit 0 ->
   Disconnect ∈ calls_of (setup_script py_int environ client stdin).2 /\
   last (setup_script py_int environ client stdin).2 =
     Some (Printed "Setup complete! You can now run the API server.")) /\
  (forall e : auth_exn,
      (setup_script py_int environ client stdin).1 = Traceback e ->
      Disconnect ∈ calls_of (setup_script py_int environ client stdin).2 ->
      AuthClient.disconnect client = inl e).
Proof.
  split.
  - script_run; script_done; split; try done; in_list.
  - intros e. script_run; script_done; in_list.
Qed.

Lemma setup_disconnects_only_on_success_witness :
  (Disconnect
     ∈ calls_of
         (setup_script example_int example_environ two_step_client
            ["+15550100"; "24680"; "hunter2"]).2 /\
   last (setup_script example_int example_environ two_step_client
           ["+15550100"; "24680"; "hunter2"]).2 =
     Some (Printed "Setup complete! You can now run the API server.")) /\
  AuthClient.disconnect breaks_on_disconnect_client =
    inl (Uncaught (OtherError "ConnectionError" "Connection lost")).
Proof.
  split.
  - apply (setup_disconnects_only_on_success example_int example_environ
             two_step_client ["+15550100"; "24680"; "hunter2"]).
    reflexivity.
  - apply (proj2 (setup_disconnects_only_on_success example_int example_environ
                    breaks_on_disconnect_client [])).
    + reflexivity.
    + vm_compute. in_list.
Defined.



(** The password is asked for and sent only after a sign-in with the code
    raised [SessionPasswordNeededError], and what is sent is the line typed
    at the password prompt. *)
Theorem password_only_after_two_step_signal
    (py_int : string -> exn + Z) (environ : gmap string string)
    (client : AuthClient.t) (stdin : list string) (password : string) :
  SignInPassword password ∈ calls_of (setup_script py_int environ client stdin).2 ->
  Asked "Two-step verification is enabled. Please enter your password: " (Some password)
    ∈ (setup_script py_int environ client stdin).2 /\
  exists phone code : string,
    SignIn phone code ∈ calls_of (setup_script py_int environ client stdin).2 /\
    AuthClient.sign_in client phone code = inl SessionPasswordNeededError.
Proof.
  script_run; intros Hin; split_membership Hin; script_done;
    (split; [in_list | eexists _, _; split; [|eassumption]; in_list]).
Qed.

Lemma password_only_after_two_step_signal_witness :
  Asked "Two-step verification is enabled. Please enter your password: " (Some "hunter2")
    ∈ (setup_script example_int environ_with_phone two_step_client
         ["24680"; "hunter2"]).2 /\
  exists phone code : string,
    SignIn phone code
      ∈ calls_of
          (setup_script example_int environ_with_phone two_step_client
             ["24680"; "hunter2"]).2 /\
    AuthClient.sign_in two_step_client phone code = inl SessionPasswordNeededError.
Proof.
  apply (password_only_after_two_step_signal example_int environ_with_phone
           two_step_client ["24680"; "hunter2"] "hunter2").
  vm_compute. in_list.
Defined.

(** "Successfully authenticated!" is printed only after a sign-in that
    returned without an exception, with the code or with the password. *)
Theorem success_message_is_earned
    (py_int : string -> exn + Z) (environ : gmap string string)
    (client : AuthClient.t) (stdin : list string) :
  Printed "Successfully authenticated!" ∈ (setup_script py_int environ client stdin).2 ->
  (exists phone code : string,
      SignIn phone code ∈ calls_of (setup_script py_int environ client stdin).2 /\
      AuthClient.sign_in client phone code = inr tt) \/
  (exists password : string,
      SignInPassword password ∈ calls_of (setup_script py_int environ client stdin).2 /\
      AuthClient.sign_in_password client password = inr tt).
Proof.
  script_run; intros Hin; split_membership Hin; script_done;
    first
      [ left; eexists _, _; split; [|eassumption]; in_list
      | right; eexists; split; [|eassumption]; in_list ].
Qed.

Lemma success_message_is_earned_witness :
  (exists phone code : string,
      SignIn phone code
        ∈ calls_of
            (setup_script example_int environ_with_phone two_step_client
               ["24680"; "hunter2"]).2 /\
      AuthClient.sign_in two_step_client phone code = inr tt) \/
  (exists password : string,
      SignInPassword password
        ∈ calls_of
            (setup_script example_int environ_with_phone two_step_client
               ["24680"; "hunter2"]).2 /\
      AuthClient.sign_in_password two_step_client password = inr tt).
Proof.
  apply (success_message_is_earned example_int environ_with_phone two_step_client
           ["24680"; "hunter2"]).
  vm_compute. in_list.
Defined.

(** The login code is requested for [TELEGRAM_PHONE] when that is set and
    not empty, after the script has printed the number it uses; otherwise
    for the line typed at the phone prompt. *)
Theorem code_goes_to_the_configured_phone
    (py_int : string -> exn + Z) (environ : gmap string string)
    (client : AuthClient.t) (stdin : list string) (phone : string) :
  SendCodeRequest phone ∈ calls_of (setup_script py_int environ client stdin).2 ->
  (str_truthy (environ !! "TELEGRAM_PHONE") = true ->
   environ !! "TELEGRAM_PHONE" = Some phone /\
   Printed ("Using phone number from .env: " +:+ phone)
     ∈ (setup_script py_int environ client stdin).2) /\
  (str_truthy (environ !! "TELEGRAM_PHONE") = false ->
   Asked "Please enter your phone number (with country code, e.g., +1234567890): "
     (Some phone) ∈ (setup_script py_int environ client stdin).2).
Proof.
  script_run; intros Hin; split_membership Hin; script_done;
    (split; intros; script_done; try split; try done; in_list).
Qed.

Lemma code_goes_to_the_configured_phone_witness :
  (environ_with_phone !! "TELEGRAM_PHONE" = Some "+15550100" /\
   Printed "Using phone number from .env: +15550100"
     ∈ (setup_script example_int environ_with_phone two_step_client ["24680"]).2) /\
  Asked "Please enter your phone number (with country code, e.g., +1234567890): "
    (Some "+15550199")
    ∈ (setup_script example_int example_environ two_step_client ["+15550199"]).2.
Proof.
  split.
  - apply (proj1 (code_goes_to_the_configured_phone example_int environ_with_phone
                    two_step_client ["24680"] "+15550100"
                    ltac:(vm_compute; in_list))).
    reflexivity.
  - apply (proj2 (code_goes_to_the_configured_phone example_int example_environ
                    two_step_client ["+15550199"] "+15550199"
                    ltac:(vm_compute; in_list))).
    reflexivity.
Defined.
